(** * Audio-rate time synchronizer (rt.c): shallow embedding and properties

    The development follows [src/rt.c]: the time-delta utility
    [difftimespec] and the synchronizer [asrsync_sync].  Integers of the C
    program are mathematical integers ([Z]) with the conversions of the
    program written out; the [double] arithmetic of the startup damping is
    IEEE-754 binary64, carried by the primitive floats of the kernel. *)

From Stdlib Require Import ZArith Bool List Lia Floats Uint63.
Import ListNotations.

Local Open Scope Z_scope.

(* ================================================================= *)
(** ** Machine integers *)

Module CInt.

(** [unsigned int]: 32 bits, arithmetic modulo 2^32. *)
Definition uint (z : Z) : Z := z mod 2 ^ 32.

(** An unsigned counter of [w] bits. *)
Definition wrap (w z : Z) : Z := z mod 2 ^ w.

(** Conversion of a [long] to [int] (the [return] of [difftimespec] in its
    same-second branch): the value is reduced modulo 2^32 into
    [-2^31, 2^31). *)
Definition int_of_long (z : Z) : Z := (z + 2 ^ 31) mod 2 ^ 32 - 2 ^ 31.

(** [labs]. *)
Definition labs (z : Z) : Z := Z.abs z.

End CInt.

(* ================================================================= *)
(** ** Time points *)

(** [struct timespec]: whole seconds and nanoseconds.  [time_t] and [long]
    are signed; their overflow is undefined in C and the fields are kept as
    mathematical integers. *)
Record timespec : Type := mkts { tv_sec : Z; tv_nsec : Z }.

Definition NSEC_PER_SEC : Z := 1000000000.

(** A well-formed time point has its nanoseconds in [0, 1e9). *)
Definition timespec_wf (t : timespec) : Prop := 0 <= tv_nsec t < NSEC_PER_SEC.

Definition timespec_wfb (t : timespec) : bool :=
  (0 <=? tv_nsec t) && (tv_nsec t <? NSEC_PER_SEC).

(** The instant or duration a time point stands for, in nanoseconds. *)
Definition timespec_ns (t : timespec) : Z := tv_sec t * NSEC_PER_SEC + tv_nsec t.

(** Modelled from the spec: the macro [timespecsub] of rt.h, which is not
    among the sources.  The spec describes it as the plain subtraction of
    one full time point from another, normalizing the borrow from seconds
    into nanoseconds. *)
Definition timespecsub (a b : timespec) : timespec :=
  let sec := tv_sec a - tv_sec b in
  let nsec := tv_nsec a - tv_nsec b in
  if nsec <? 0 then mkts (sec - 1) (nsec + NSEC_PER_SEC) else mkts sec nsec.

(** [difftimespec(ts1, ts2, ts)]: the returned [int] paired with the time
    point stored through [ts].  Both arguments are copied before [ts] is
    written, so the result does not depend on aliasing. *)
Definition difftimespec (ts1 ts2 : timespec) : Z * timespec :=
  if tv_sec ts1 =? tv_sec ts2 then
    (CInt.int_of_long (tv_nsec ts2 - tv_nsec ts1),
     mkts 0 (CInt.labs (tv_nsec ts2 - tv_nsec ts1)))
  else if tv_sec ts1 <? tv_sec ts2 then
    (1, timespecsub ts2 ts1)
  else
    (-1, timespecsub ts1 ts2).

(** The three-way ordering the returned integer encodes, as the comment of
    [difftimespec] documents it: less than, equal to, or greater than zero
    when t2 is found less than, equal to, or greater than t1. *)
Definition ordering_of_int (rv : Z) : comparison := rv ?= 0.

(* ================================================================= *)
(** ** The startup damping, in [double] arithmetic *)

Module CDouble.

(** Conversion of a signed 64-bit integer to [double] (round to nearest). *)
Definition of_long (z : Z) : float :=
  if z <? 0 then PrimFloat.opp (PrimFloat.of_uint63 (Uint63.of_Z (- z)))
  else PrimFloat.of_uint63 (Uint63.of_Z z).

(** Conversion of a [double] to a signed integer: truncation toward zero.
    The conversion of a NaN or an infinity is undefined in C; it is 0
    here. *)
Definition to_long (f : float) : Z :=
  match Prim2SF f with
  | S754_finite s m e =>
      let a := if 0 <=? e then Z.pos m * 2 ^ e else Z.pos m / 2 ^ (- e) in
      if s then - a else a
  | _ => 0
  end.

End CDouble.

(** The body of [if (!asrs->sync_mode) { ... }] inside the wait branch of
    [asrsync_sync]:
<<
      double idle_time = (double)ts_idle.tv_sec + (double)ts_idle.tv_nsec/1e9;
      idle_time *= 0.5;
      ts_idle.tv_sec = (time_t)idle_time;
      ts_idle.tv_nsec = (long)(idle_time*1e9);
>> *)
Definition damp_idle (ts_idle : timespec) : timespec :=
  let idle_time :=
    PrimFloat.add (CDouble.of_long (tv_sec ts_idle))
                  (PrimFloat.div (CDouble.of_long (tv_nsec ts_idle)) 1e9%float) in
  let idle_time := PrimFloat.mul idle_time 0.5%float in
  mkts (CDouble.to_long idle_time)
       (CDouble.to_long (PrimFloat.mul idle_time 1e9%float)).

(* ================================================================= *)
(** ** The monotonic clock *)

(** Modelled from the spec: the macro [gettimestamp] of rt.h, which is not
    among the sources.  The spec describes it as a read of the monotonic
    clock that may fail.  A successful read stores the current time into
    the buffer and yields 0; a failed read leaves the buffer as it was and
    yields -1. *)
Inductive clock_result : Type :=
| ClockOk (now : timespec)
| ClockFail.

Definition gettimestamp (r : clock_result) (buf : timespec) : Z * timespec :=
  match r with
  | ClockOk now => (0, now)
  | ClockFail => (-1, buf)
  end.

(** What the environment answers during one call of [asrsync_sync]: the
    outcome of the clock read into the local [ts_now], the indeterminate
    content that uninitialized local holds, and the outcome of the final
    clock read into [asrs->ts]. *)
Record clock_env : Type := mkenv {
  clk_now : clock_result;
  ts_now_init : timespec;
  clk_end : clock_result
}.

Definition clock_failed (env : clock_env) : Prop :=
  clk_now env = ClockFail \/ clk_end env = ClockFail.

(* ================================================================= *)
(** ** The synchronizer *)

(** Modelled from the spec: [struct asrsync] is declared in rt.h, which is
    not among the sources.  The fields are the ones the spec lists and
    [asrsync_sync] reads and writes: the sample rate (an [unsigned int],
    copied into one on entry), two reference time points, the unsigned
    frame counter, the two measured durations and the mode flag. *)
Record asrsync : Type := mkasrsync {
  rate : Z;
  ts0 : timespec;
  ts : timespec;
  frames : Z;
  ts_busy : timespec;
  ts_idle : timespec;
  sync_mode : bool
}.

Definition set_frames (a : asrsync) (v : Z) : asrsync :=
  mkasrsync (rate a) (ts0 a) (ts a) v (ts_busy a) (ts_idle a) (sync_mode a).
Definition set_sync_mode (a : asrsync) (v : bool) : asrsync :=
  mkasrsync (rate a) (ts0 a) (ts a) (frames a) (ts_busy a) (ts_idle a) v.
Definition set_ts0 (a : asrsync) (v : timespec) : asrsync :=
  mkasrsync (rate a) v (ts a) (frames a) (ts_busy a) (ts_idle a) (sync_mode a).
Definition set_ts (a : asrsync) (v : timespec) : asrsync :=
  mkasrsync (rate a) (ts0 a) v (frames a) (ts_busy a) (ts_idle a) (sync_mode a).
Definition set_ts_busy (a : asrsync) (v : timespec) : asrsync :=
  mkasrsync (rate a) (ts0 a) (ts a) (frames a) v (ts_idle a) (sync_mode a).
Definition set_ts_idle (a : asrsync) (v : timespec) : asrsync :=
  mkasrsync (rate a) (ts0 a) (ts a) (frames a) (ts_busy a) v (sync_mode a).

Definition FRAME_THRESHOLD : Z := 200000.

(** What one call of [asrsync_sync] computes on its way and does to its
    environment, besides the state it leaves and the value it returns. *)
Record sync_trace : Type := mktrace {
  tr_frames : Z;               (* the local [frames] after the selection *)
  tr_ts_rev : timespec;        (* the time point [ts_rev] points to *)
  tr_ts_rate : timespec;       (* [ts_rate], the expected duration *)
  tr_ts_running : timespec;    (* [ts_running] *)
  tr_cmp : Z;                  (* what [difftimespec] returned *)
  tr_ts_idle : timespec;       (* what [difftimespec] stored in [ts_idle] *)
  tr_sleep : option timespec   (* the argument of [nanosleep], if called *)
}.

Section Synchronizer.

(** The width in bits of the unsigned frame counter [asrs->frames].  The
    declaration is in rt.h, which is not among the sources, so the width
    is left open: 32 for a [uint32_t] counter, 64 for a [uint64_t] one. *)
Variable frames_bits : Z.

(** [asrs->frames += frames;] *)
Definition accumulate (asrs : asrsync) (frames_in : Z) : asrsync :=
  set_frames asrs (CInt.wrap frames_bits (frames asrs + frames_in)).

(** [if(!asrs->sync_mode) { asrs->sync_mode = asrs->frames >= FRAME_THRESHOLD;
     if(asrs->sync_mode) { asrs->frames = frames; asrs->ts0 = asrs->ts; } }] *)
Definition mode_transition (asrs : asrsync) (frames_in : Z) : asrsync :=
  if negb (sync_mode asrs) then
    let asrs := set_sync_mode asrs (FRAME_THRESHOLD <=? frames asrs) in
    if sync_mode asrs then
      let asrs := set_frames asrs (CInt.wrap frames_bits frames_in) in
      set_ts0 asrs (ts asrs)
    else asrs
  else asrs.

(** Steps 1 and 2 together: the frame accounting done before any clock
    read. *)
Definition prepare (asrs : asrsync) (frames_in : Z) : asrsync :=
  mode_transition (accumulate asrs frames_in) frames_in.

(** [if(asrs->sync_mode) { frames = asrs->frames; ts_rev = &asrs->ts0; }
     else { ts_rev = &asrs->ts; }]: the local [frames] and the time point
    [ts_rev] points to. *)
Definition select_reference (asrs : asrsync) (frames_in : Z) : Z * timespec :=
  if sync_mode asrs then (CInt.uint (frames asrs), ts0 asrs)
  else (frames_in, ts asrs).

(** [ts_rate.tv_sec = frames / rate;
     ts_rate.tv_nsec = 1000000000L / rate * (frames % rate);]
    With [rate > 0] the product is at most 1e9, so no intermediate value
    leaves the range of [long] or of [unsigned long]. *)
Definition expected_duration (rate_hz frames_sel : Z) : timespec :=
  mkts (frames_sel / rate_hz) (1000000000 / rate_hz * (frames_sel mod rate_hz)).

(** The wait branch: the damping in startup mode, then [nanosleep] on
    [asrs->ts_idle].  Returns the state and the argument of [nanosleep]. *)
Definition wait_branch (asrs : asrsync) : asrsync * timespec :=
  let asrs :=
    if negb (sync_mode asrs) then set_ts_idle asrs (damp_idle (ts_idle asrs))
    else asrs in
  (asrs, ts_idle asrs).

(** [asrsync_sync(asrs, frames)] with the answers [env] of the clock.
    The division by a zero [rate] is undefined: [None]. *)
Definition asrsync_sync_trace (asrs : asrsync) (frames_in : Z) (env : clock_env)
  : option (asrsync * Z * sync_trace) :=
  let rate_hz := rate asrs in
  let asrs := accumulate asrs frames_in in
  let asrs := mode_transition asrs frames_in in
  let '(frames_sel, ts_rev) := select_reference asrs frames_in in
  if rate_hz =? 0 then None
  else
    let ts_rate := expected_duration rate_hz frames_sel in
    let ts_now := snd (gettimestamp (clk_now env) (ts_now_init env)) in
    let asrs := set_ts_busy asrs (timespecsub ts_now (ts asrs)) in
    let ts_running := timespecsub ts_now ts_rev in
    let '(cmp, idle) := difftimespec ts_running ts_rate in
    let asrs := set_ts_idle asrs idle in
    let '(asrs, rv, slept) :=
      if 0 <? cmp then
        let '(asrs, req) := wait_branch asrs in (asrs, 1, Some req)
      else (asrs, 0, None) in
    let asrs := set_ts asrs (snd (gettimestamp (clk_end env) (ts asrs))) in
    Some (asrs, rv,
          mktrace frames_sel ts_rev ts_rate ts_running cmp idle slept).

(** The state left and the value returned. *)
Definition asrsync_sync (asrs : asrsync) (frames_in : Z) (env : clock_env)
  : option (asrsync * Z) :=
  match asrsync_sync_trace asrs frames_in env with
  | Some (asrs', rv, _) => Some (asrs', rv)
  | None => None
  end.

(** A sequence of calls on one instance. *)
Fixpoint run (asrs : asrsync) (calls : list (Z * clock_env)) : option asrsync :=
  match calls with
  | [] => Some asrs
  | (frames_in, env) :: rest =>
      match asrsync_sync asrs frames_in env with
      | Some (asrs', _) => run asrs' rest
      | None => None
      end
  end.

End Synchronizer.

(** The expected duration as the specification words it in its testable
    properties: [frames / rate] whole seconds plus
    [(frames % rate) * 1e9 / rate] nanoseconds.  It is compared below with
    [expected_duration], which is what the code computes. *)
Definition expected_duration_spec (rate_hz frames_sel : Z) : timespec :=
  mkts (frames_sel / rate_hz) ((frames_sel mod rate_hz) * 1000000000 / rate_hz).

(* ================================================================= *)
(** ** Sample instances and clocks *)

Module Sample.

Definition epoch : timespec := mkts 0 0.

(** A zero-initialized instance with its rate set. *)
Definition fresh (rate_hz : Z) : asrsync :=
  mkasrsync rate_hz epoch epoch 0 epoch epoch false.

(** An instance in steady-state mode. *)
Definition steady (rate_hz : Z) : asrsync :=
  mkasrsync rate_hz (mkts 10 0) (mkts 12 0) 96000 epoch epoch true.

(** An instance one call before the transition: 199000 frames counted in
    startup mode. *)
Definition near_threshold : asrsync :=
  mkasrsync 44100 epoch (mkts 5 0) 199000 epoch epoch false.

(** Both clock reads fail. *)
Definition clock_down : clock_env := mkenv ClockFail epoch ClockFail.

(** The clock reads [now] on entry and [later] on exit. *)
Definition clock_at (now later : timespec) : clock_env :=
  mkenv (ClockOk now) epoch (ClockOk later).

End Sample.

(** The frames handed over by a sequence of calls, all together. *)
Definition chunk_total (calls : list (Z * clock_env)) : Z :=
  fold_right (fun c acc => fst c + acc) 0 calls.

(* ================================================================= *)
(** ** Conversions that change nothing on values in range *)

Lemma int_of_long_small z :
  - 2 ^ 31 <= z < 2 ^ 31 -> CInt.int_of_long z = z.
Proof.
  intros Hz. unfold CInt.int_of_long.
  rewrite Z.mod_small by lia. lia.
Qed.

Lemma uint_small z : 0 <= z < 2 ^ 32 -> CInt.uint z = z.
Proof. intros Hz. unfold CInt.uint. now apply Z.mod_small. Qed.

Lemma wrap_small w z : 0 <= z < 2 ^ w -> CInt.wrap w z = z.
Proof. intros Hz. unfold CInt.wrap. now apply Z.mod_small. Qed.

(* ================================================================= *)
(** ** Properties of the time-delta utility *)

Module TimeDelta.

Ltac unfold_ts :=
  unfold difftimespec, timespecsub, timespec_wf, timespec_ns,
    CInt.labs, NSEC_PER_SEC in *; simpl tv_sec in *; simpl tv_nsec in *.

Ltac split_tests :=
  repeat match goal with
    | |- context [?a =? ?b] => destruct (Z.eqb_spec a b)
    | |- context [?a <? ?b] => destruct (Z.ltb_spec a b)
    end.

Lemma timespec_neq (t1 t2 : timespec) :
  t1 <> t2 -> tv_sec t1 <> tv_sec t2 \/ tv_nsec t1 <> tv_nsec t2.
Proof.
  destruct t1 as [s1 n1], t2 as [s2 n2]; simpl; intros Hne.
  destruct (Z.eq_dec s1 s2) as [-> | Hs]; [right | now left].
  intros ->. now apply Hne.
Qed.

(** Subtracting a well-formed time point from a well-formed one gives a
    well-formed result that stands for the difference of the two. *)
Lemma timespecsub_wf (a b : timespec) :
  timespec_wf a -> timespec_wf b -> timespec_wf (timespecsub a b).
Proof. intros Ha Hb. unfold_ts. split_tests; simpl; lia. Qed.

Lemma timespecsub_ns (a b : timespec) :
  timespec_ns (timespecsub a b) = timespec_ns a - timespec_ns b.
Proof. unfold_ts. split_tests; simpl; lia. Qed.

(** On well-formed time points the value returned in the same-second
    branch fits an [int]: the conversion changes nothing. *)
Lemma same_second_return (t1 t2 : timespec) :
  timespec_wf t1 -> timespec_wf t2 ->
  CInt.int_of_long (tv_nsec t2 - tv_nsec t1) = tv_nsec t2 - tv_nsec t1.
Proof.
  intros H1 H2. apply int_of_long_small.
  unfold timespec_wf, NSEC_PER_SEC in *.
  change (2 ^ 31) with 2147483648. lia.
Qed.

(** What [difftimespec] stores is well-formed and is the absolute
    difference of the two time points. *)
Lemma difftimespec_wf (t1 t2 : timespec) :
  timespec_wf t1 -> timespec_wf t2 -> timespec_wf (snd (difftimespec t1 t2)).
Proof. intros H1 H2. unfold_ts. split_tests; simpl; lia. Qed.

Lemma difftimespec_abs (t1 t2 : timespec) :
  timespec_wf t1 -> timespec_wf t2 ->
  timespec_ns (snd (difftimespec t1 t2)) = Z.abs (timespec_ns t1 - timespec_ns t2).
Proof. intros H1 H2. unfold_ts. split_tests; simpl; lia. Qed.

(** The sign of the returned value is the sign of t2 - t1. *)
Lemma difftimespec_sign (t1 t2 : timespec) :
  timespec_wf t1 -> timespec_wf t2 ->
  ordering_of_int (fst (difftimespec t1 t2)) = (timespec_ns t2 ?= timespec_ns t1).
Proof.
  intros H1 H2. unfold ordering_of_int, difftimespec.
  destruct (Z.eqb_spec (tv_sec t1) (tv_sec t2)) as [Heq | Hne]; simpl fst.
  - rewrite (same_second_return t1 t2 H1 H2).
    unfold timespec_ns. rewrite Heq.
    destruct (Z.compare_spec (tv_nsec t2 - tv_nsec t1) 0);
      symmetry; [apply Z.compare_eq_iff | apply Z.compare_lt_iff
                | apply Z.compare_gt_iff]; lia.
  - unfold timespec_wf, timespec_ns, NSEC_PER_SEC in *.
    destruct (Z.ltb_spec (tv_sec t1) (tv_sec t2)); simpl fst; symmetry;
      [apply Z.compare_gt_iff | apply Z.compare_lt_iff]; lia.
Qed.

(** C8. For every time point t, [difftimespec t t] stores the zero
    duration (seconds and nanoseconds both zero) and returns zero, the
    ordering `equal`. *)
Theorem difftimespec_refl (t : timespec) :
  difftimespec t t = (0, mkts 0 0)
  /\ ordering_of_int (fst (difftimespec t t)) = Eq.
Proof.
  assert (H : difftimespec t t = (0, mkts 0 0)).
  { unfold difftimespec. rewrite Z.eqb_refl, Z.sub_diag. reflexivity. }
  rewrite H. split; reflexivity.
Qed.

(** C9. For every pair of distinct well-formed time points t1 and t2,
    [difftimespec t1 t2] and [difftimespec t2 t1] store the same absolute
    difference, and the returned values are opposite and non-zero: one
    is positive and the other negative. *)
Theorem difftimespec_swap (t1 t2 : timespec) :
  timespec_wf t1 -> timespec_wf t2 -> t1 <> t2 ->
  snd (difftimespec t1 t2) = snd (difftimespec t2 t1)
  /\ fst (difftimespec t1 t2) = - fst (difftimespec t2 t1)
  /\ (0 < fst (difftimespec t1 t2) /\ fst (difftimespec t2 t1) < 0
      \/ fst (difftimespec t1 t2) < 0 /\ 0 < fst (difftimespec t2 t1)).
Proof.
  intros H1 H2 Hne.
  destruct (timespec_neq _ _ Hne) as [Hs | Hn].
  - unfold difftimespec.
    destruct (Z.eqb_spec (tv_sec t1) (tv_sec t2)) as [E | _]; [contradiction|].
    destruct (Z.eqb_spec (tv_sec t2) (tv_sec t1)) as [E | _];
      [symmetry in E; contradiction|].
    destruct (Z.ltb_spec (tv_sec t1) (tv_sec t2)),
             (Z.ltb_spec (tv_sec t2) (tv_sec t1)); simpl; try lia.
    + repeat split; lia.
    + repeat split; lia.
  - destruct (Z.eq_dec (tv_sec t1) (tv_sec t2)) as [E | Hs].
    + unfold difftimespec.
      rewrite E, Z.eqb_refl. simpl.
      rewrite (same_second_return t1 t2 H1 H2), (same_second_return t2 t1 H2 H1).
      unfold CInt.labs. split; [f_equal; lia | lia].
    + unfold difftimespec.
      destruct (Z.eqb_spec (tv_sec t1) (tv_sec t2)) as [E | _]; [contradiction|].
      destruct (Z.eqb_spec (tv_sec t2) (tv_sec t1)) as [E | _];
        [symmetry in E; contradiction|].
      destruct (Z.ltb_spec (tv_sec t1) (tv_sec t2)),
               (Z.ltb_spec (tv_sec t2) (tv_sec t1)); simpl; try lia.
      * repeat split; lia.
      * repeat split; lia.
Qed.

(** C4, as amended. For every pair of well-formed time points whose
    whole-second fields differ: when t1's seconds are smaller than t2's,
    [difftimespec t1 t2] returns 1, the ordering `greater` (t2 is later
    than t1), and stores t2 - t1; otherwise it returns -1, the ordering
    `less`, and stores t1 - t2.  What is stored is a well-formed time
    point, the absolute difference of the two. *)
Theorem difftimespec_cross_second (t1 t2 : timespec) :
  timespec_wf t1 -> timespec_wf t2 -> tv_sec t1 <> tv_sec t2 ->
  (tv_sec t1 < tv_sec t2 ->
     fst (difftimespec t1 t2) = 1
     /\ ordering_of_int (fst (difftimespec t1 t2)) = Gt
     /\ snd (difftimespec t1 t2) = timespecsub t2 t1)
  /\ (tv_sec t2 < tv_sec t1 ->
     fst (difftimespec t1 t2) = -1
     /\ ordering_of_int (fst (difftimespec t1 t2)) = Lt
     /\ snd (difftimespec t1 t2) = timespecsub t1 t2)
  /\ timespec_wf (snd (difftimespec t1 t2))
  /\ timespec_ns (snd (difftimespec t1 t2))
     = Z.abs (timespec_ns t1 - timespec_ns t2).
Proof.
  intros H1 H2 Hs.
  split; [| split; [| split]].
  - intros Hlt. unfold difftimespec.
    destruct (Z.eqb_spec (tv_sec t1) (tv_sec t2)); [contradiction|].
    destruct (Z.ltb_spec (tv_sec t1) (tv_sec t2)); [|lia].
    repeat split.
  - intros Hlt. unfold difftimespec.
    destruct (Z.eqb_spec (tv_sec t1) (tv_sec t2)); [contradiction|].
    destruct (Z.ltb_spec (tv_sec t1) (tv_sec t2)); [lia|].
    repeat split.
  - now apply difftimespec_wf.
  - now apply difftimespec_abs.
Qed.

End TimeDelta.

(* ================================================================= *)
(** ** Properties of the synchronizer *)

Section SynchronizerFacts.

Variable frames_bits : Z.


(** *** The frame accounting (steps 1 and 2) *)

Lemma prepare_rate s n : rate (prepare frames_bits s n) = rate s.
Proof.
  unfold prepare, mode_transition, accumulate. simpl.
  destruct (sync_mode s); simpl; [reflexivity|].
  destruct (FRAME_THRESHOLD <=? _); reflexivity.
Qed.

Lemma prepare_ts s n : ts (prepare frames_bits s n) = ts s.
Proof.
  unfold prepare, mode_transition, accumulate. simpl.
  destruct (sync_mode s); simpl; [reflexivity|].
  destruct (FRAME_THRESHOLD <=? _); reflexivity.
Qed.

(** In steady-state mode the transition block is skipped. *)
Lemma prepare_synced s n :
  sync_mode s = true ->
  prepare frames_bits s n = set_frames s (CInt.wrap frames_bits (frames s + n)).
Proof.
  intros H. unfold prepare, mode_transition, accumulate. simpl. now rewrite H.
Qed.

(** In startup mode below the threshold only the counter moves. *)
Lemma prepare_startup s n :
  sync_mode s = false ->
  CInt.wrap frames_bits (frames s + n) < FRAME_THRESHOLD ->
  prepare frames_bits s n = set_frames s (CInt.wrap frames_bits (frames s + n)).
Proof.
  intros H Hlt. unfold prepare, mode_transition, accumulate. simpl. rewrite H. simpl.
  destruct (Z.leb_spec FRAME_THRESHOLD (CInt.wrap frames_bits (frames s + n)));
    [lia|].
  unfold set_sync_mode, set_frames. simpl. now rewrite H.
Qed.

(** In startup mode at or above the threshold the mode flips. *)
Lemma prepare_transition s n :
  sync_mode s = false ->
  FRAME_THRESHOLD <= CInt.wrap frames_bits (frames s + n) ->
  prepare frames_bits s n =
    mkasrsync (rate s) (ts s) (ts s) (CInt.wrap frames_bits n)
              (ts_busy s) (ts_idle s) true.
Proof.
  intros H Hge. unfold prepare, mode_transition, accumulate. simpl. rewrite H. simpl.
  destruct (Z.leb_spec FRAME_THRESHOLD (CInt.wrap frames_bits (frames s + n)));
    [reflexivity | lia].
Qed.

Lemma prepare_sync_mode_mono s n :
  sync_mode s = true -> sync_mode (prepare frames_bits s n) = true.
Proof. intros H. now rewrite prepare_synced. Qed.

(** *** One call, step by step *)

(** The call is defined exactly when the rate is not zero. *)
Lemma sync_trace_none s n env :
  rate s = 0 -> asrsync_sync_trace frames_bits s n env = None.
Proof.
  intros H. unfold asrsync_sync_trace.
  destruct (select_reference _ _). now rewrite H.
Qed.

Lemma sync_trace_some s n env :
  rate s <> 0 ->
  exists s' rv tr, asrsync_sync_trace frames_bits s n env = Some (s', rv, tr).
Proof.
  intros H. unfold asrsync_sync_trace.
  destruct (select_reference _ _) as [fs rev].
  destruct (Z.eqb_spec (rate s) 0) as [E | _]; [contradiction|].
  destruct (difftimespec _ _) as [cmp idle].
  destruct (0 <? cmp); [unfold wait_branch|]; eauto.
Qed.

(** Every value of a defined call, in the order the function computes
    them. *)
Lemma sync_trace_inv s n env s' rv tr :
  asrsync_sync_trace frames_bits s n env = Some (s', rv, tr) ->
  let s1 := prepare frames_bits s n in
  let ts_now := snd (gettimestamp (clk_now env) (ts_now_init env)) in
  rate s <> 0
  /\ rate s' = rate s /\ frames s' = frames s1
  /\ sync_mode s' = sync_mode s1 /\ ts0 s' = ts0 s1
  /\ ts s' = snd (gettimestamp (clk_end env) (ts s))
  /\ ts_busy s' = timespecsub ts_now (ts s)
  /\ tr_frames tr = fst (select_reference s1 n)
  /\ tr_ts_rev tr = snd (select_reference s1 n)
  /\ tr_ts_rate tr = expected_duration (rate s) (tr_frames tr)
  /\ tr_ts_running tr = timespecsub ts_now (tr_ts_rev tr)
  /\ tr_cmp tr = fst (difftimespec (tr_ts_running tr) (tr_ts_rate tr))
  /\ tr_ts_idle tr = snd (difftimespec (tr_ts_running tr) (tr_ts_rate tr))
  /\ (0 < tr_cmp tr ->
        rv = 1 /\ tr_sleep tr = Some (ts_idle s')
        /\ ts_idle s' = if sync_mode s1 then tr_ts_idle tr
                        else damp_idle (tr_ts_idle tr))
  /\ (tr_cmp tr <= 0 ->
        rv = 0 /\ tr_sleep tr = None /\ ts_idle s' = tr_ts_idle tr).
Proof.
  intros Hrun s1 ts_now.
  pose proof (prepare_rate s n) as Hrate.
  pose proof (prepare_ts s n) as Hts.
  fold s1 in Hrate, Hts.
  unfold asrsync_sync_trace in Hrun.
  change (mode_transition frames_bits (accumulate frames_bits s n) n)
    with s1 in Hrun. fold ts_now in Hrun.
  destruct (select_reference s1 n) as [fs rev] eqn:Hsel.
  destruct (Z.eqb_spec (rate s) 0) as [E | Hnz]; [discriminate|].
  destruct (difftimespec _ _) as [cmp idle] eqn:Hd.
  destruct (Z.ltb_spec 0 cmp) as [Hpos | Hle].
  - unfold wait_branch in Hrun. simpl in Hrun.
    destruct (sync_mode s1) eqn:Hm; simpl in Hrun;
      injection Hrun as <- <- <-; simpl; rewrite ?Hd, ?Hts, ?Hrate, ?Hm; simpl;
      repeat split; auto; lia.
  - injection Hrun as <- <- <-; simpl; rewrite ?Hd, ?Hts, ?Hrate; simpl.
    repeat split; auto; lia.
Qed.

Lemma sync_eq_trace s n env s' rv :
  asrsync_sync frames_bits s n env = Some (s', rv) ->
  exists tr, asrsync_sync_trace frames_bits s n env = Some (s', rv, tr).
Proof.
  unfold asrsync_sync.
  destruct (asrsync_sync_trace _ _ _ _) as [[[a r] t] |]; [|discriminate].
  intros H. injection H as <- <-. now exists t.
Qed.

(** *** Sequences of calls *)

Lemma run_cons s n env rest :
  run frames_bits s ((n, env) :: rest) =
    match asrsync_sync frames_bits s n env with
    | Some (s', _) => run frames_bits s' rest
    | None => None
    end.
Proof. reflexivity. Qed.

(** One call in steady-state mode: the mode, the reference time point and
    the rate stay; the counter moves on. *)
Lemma sync_synced_step s n env s' rv :
  sync_mode s = true ->
  asrsync_sync frames_bits s n env = Some (s', rv) ->
  sync_mode s' = true /\ ts0 s' = ts0 s /\ rate s' = rate s
  /\ frames s' = CInt.wrap frames_bits (frames s + n).
Proof.
  intros Hm Hrun.
  destruct (sync_eq_trace _ _ _ _ _ Hrun) as [tr Htr].
  pose proof (sync_trace_inv _ _ _ _ _ _ Htr) as Hinv. simpl in Hinv.
  rewrite (prepare_synced s n Hm) in Hinv. simpl in Hinv.
  destruct Hinv as (_ & Hr & Hf & Hsm & Ht0 & _).
  rewrite Hsm, Hm. auto.
Qed.

(** Any number of calls in steady-state mode. *)
Lemma run_synced s calls :
  sync_mode s = true -> rate s <> 0 ->
  exists s', run frames_bits s calls = Some s'
             /\ sync_mode s' = true /\ ts0 s' = ts0 s /\ rate s' = rate s.
Proof.
  revert s. induction calls as [| [n env] rest IH]; intros s Hm Hr.
  - exists s. simpl. auto.
  - rewrite run_cons.
    destruct (sync_trace_some s n env Hr) as (s1 & rv & tr & Htr).
    assert (Hrun : asrsync_sync frames_bits s n env = Some (s1, rv))
      by (unfold asrsync_sync; now rewrite Htr).
    rewrite Hrun.
    destruct (sync_synced_step _ _ _ _ _ Hm Hrun) as (Hm1 & Ht1 & Hr1 & _).
    destruct (IH s1 Hm1) as (s' & Hs' & Hm' & Ht' & Hr'); [congruence|].
    exists s'. repeat split; congruence.
Qed.

(** *** The expected duration (step 4) *)

Lemma expected_duration_wf r f : 0 < r -> timespec_wf (expected_duration r f).
Proof.
  intros Hr. unfold timespec_wf, expected_duration, NSEC_PER_SEC. simpl.
  pose proof (Z.mod_pos_bound f r Hr) as Hm.
  pose proof (Z.mul_div_le 1000000000 r Hr) as Hq.
  assert (0 <= 1000000000 / r) by (apply Z.div_pos; lia).
  nia.
Qed.

Lemma expected_duration_exact r f :
  r <> 0 -> 1000000000 mod r = 0 ->
  expected_duration r f = expected_duration_spec r f.
Proof.
  intros Hr Hdiv. unfold expected_duration, expected_duration_spec. f_equal.
  apply Z.div_exact in Hdiv; [|assumption].
  set (q := 1000000000 / r) in *.
  rewrite Hdiv.
  replace (f mod r * (r * q)) with (f mod r * q * r) by ring.
  rewrite Z.div_mul by assumption. ring.
Qed.

(** *** The claims about one call *)

(** One defined call, every value in terms of the state and the clock on
    entry: the counter after step 1, the mode after step 2, the selected
    frame count and reference of step 3, and what follows from them. *)
Lemma sync_trace_explicit s n env :
  rate s <> 0 ->
  let counter := CInt.wrap frames_bits (frames s + n) in
  let steady := sync_mode s || (FRAME_THRESHOLD <=? counter) in
  let frames_sel :=
    if sync_mode s then CInt.uint counter
    else if FRAME_THRESHOLD <=? counter
         then CInt.uint (CInt.wrap frames_bits n) else n in
  let ts_ref := if sync_mode s then ts0 s else ts s in
  let ts_now := snd (gettimestamp (clk_now env) (ts_now_init env)) in
  let ts_rate := expected_duration (rate s) frames_sel in
  let ts_running := timespecsub ts_now ts_ref in
  let cmp := fst (difftimespec ts_running ts_rate) in
  let diff := snd (difftimespec ts_running ts_rate) in
  exists s' tr,
    asrsync_sync_trace frames_bits s n env
      = Some (s', (if 0 <? cmp then 1 else 0), tr)
    /\ tr = mktrace frames_sel ts_ref ts_rate ts_running cmp diff
              (if 0 <? cmp
               then Some (if steady then diff else damp_idle diff)
               else None)
    /\ ts_idle s' = (if (0 <? cmp) && negb steady then damp_idle diff else diff)
    /\ ts s' = snd (gettimestamp (clk_end env) (ts s)).
Proof.
  intros Hr. destruct s as [r t0 t f b i m]. simpl in Hr.
  cbv beta iota zeta delta
    [asrsync_sync_trace accumulate mode_transition select_reference
     wait_branch set_ts_idle set_ts_busy set_frames set_sync_mode set_ts0
     set_ts rate ts0 ts frames ts_busy ts_idle sync_mode negb orb andb].
  destruct (Z.eqb_spec r 0) as [Hz | _]; [contradiction|].
  destruct m.
  - cbv beta iota.
    destruct (difftimespec _ _) as [cmp d]. cbn [fst snd].
    destruct (0 <? cmp); cbv beta iota; eexists; eexists; repeat split.
  - cbv beta iota.
    destruct (FRAME_THRESHOLD <=? CInt.wrap frames_bits (f + n));
      cbv beta iota;
      destruct (difftimespec _ _) as [cmp d]; cbn [fst snd];
      destruct (0 <? cmp); cbv beta iota; eexists; eexists; repeat split.
Qed.

(** The expected duration against the exact frames * 1e9 / rate. *)
Lemma expected_duration_shortfall r f :
  0 < r ->
  timespec_ns (expected_duration r f) <= f * 1000000000 / r
  /\ f * 1000000000 / r
     <= timespec_ns (expected_duration r f) + 1000000000 mod r.
Proof.
  intros Hr.
  unfold expected_duration, timespec_ns, NSEC_PER_SEC. simpl.
  pose proof (Z.mod_pos_bound f r Hr) as Hm.
  pose proof (Z.mod_pos_bound 1000000000 r Hr) as Hrho.
  pose proof (Z.div_mod f r ltac:(lia)) as Ef.
  pose proof (Z.div_mod 1000000000 r ltac:(lia)) as Eq.
  set (a := f / r) in *. set (m := f mod r) in *.
  set (q := 1000000000 / r) in *. set (rho := 1000000000 mod r) in *.
  assert (Hsplit : f * 1000000000
                   = (a * 1000000000 + q * m) * r + m * rho).
  { rewrite Ef.
    transitivity (r * a * 1000000000 + m * (r * q + rho)); [|ring].
    rewrite <- Eq. ring. }
  rewrite Hsplit, Z.div_add_l by lia.
  assert (0 <= m * rho / r)
    by (apply Z.div_pos; [apply Z.mul_nonneg_nonneg|]; lia).
  assert (m * rho / r <= rho)
    by (apply Z.div_le_upper_bound; [lia | nia]).
  lia.
Qed.

(** C3. On the call in which the accumulated frames counter reaches or
    exceeds 200000 while sync_mode is false, sync sets sync_mode, resets
    frames to that call's frame count and sets ts0 to the value ts held on
    entry; in that call the expected duration is computed from the frames
    counter and the running time from ts0.  In every later call, after any
    number of calls in between, sync_mode is still set, ts0 is still that
    snapshot, and the expected duration is computed from the running
    frames counter (as the [unsigned int] local holds it: the counter
    itself whenever it is below 2^32, hence always when the counter is 32
    bits wide) and the running time from ts0. *)
Theorem sync_mode_transition s n env :
  rate s <> 0 -> 32 <= frames_bits -> 0 <= n < 2 ^ 32 ->
  sync_mode s = false ->
  FRAME_THRESHOLD <= CInt.wrap frames_bits (frames s + n) ->
  exists s' rv tr,
    asrsync_sync_trace frames_bits s n env = Some (s', rv, tr)
    /\ sync_mode s' = true /\ frames s' = n /\ ts0 s' = ts s
    /\ tr_frames tr = frames s' /\ tr_ts_rev tr = ts0 s'
    /\ tr_ts_rate tr = expected_duration (rate s) (frames s')
    /\ forall calls m env2,
       exists s2 s3 rv3 tr3,
         run frames_bits s' calls = Some s2
         /\ asrsync_sync_trace frames_bits s2 m env2 = Some (s3, rv3, tr3)
         /\ sync_mode s3 = true /\ ts0 s3 = ts s
         /\ frames s3 = CInt.wrap frames_bits (frames s2 + m)
         /\ tr_frames tr3 = CInt.uint (frames s3)
         /\ (frames s3 < 2 ^ 32 \/ frames_bits = 32 -> tr_frames tr3 = frames s3)
         /\ tr_ts_rev tr3 = ts0 s3
         /\ tr_ts_rate tr3 = expected_duration (rate s) (tr_frames tr3).
Proof.
  intros Hr Hw Hn Hm Hge.
  destruct (sync_trace_some s n env Hr) as (s' & rv & tr & Htr).
  exists s', rv, tr.
  pose proof (sync_trace_inv _ _ _ _ _ _ Htr) as Hinv. simpl in Hinv.
  rewrite (prepare_transition s n Hm Hge) in Hinv.
  unfold select_reference in Hinv. simpl in Hinv.
  destruct Hinv as (_ & Hrate & Hf & Hsm & Ht0 & _ & _ & Htf & Hrev & Hexp & _).
  assert (Hwn : CInt.wrap frames_bits n = n).
  { apply wrap_small. split; [lia|].
    apply Z.lt_le_trans with (2 ^ 32); [lia|].
    apply Z.pow_le_mono_r; lia. }
  rewrite Hwn in *.
  assert (Hun : CInt.uint n = n) by now apply uint_small.
  rewrite Hun in Htf.
  split; [exact Htr|].
  repeat (split; [congruence|]).
  intros calls m env2.
  assert (Hr' : rate s' <> 0) by congruence.
  destruct (run_synced s' calls Hsm Hr') as (s2 & Hrun & Hm2 & Ht2 & Hr2).
  assert (Hr2' : rate s2 <> 0) by congruence.
  destruct (sync_trace_some s2 m env2 Hr2') as (s3 & rv3 & tr3 & Htr3).
  exists s2, s3, rv3, tr3.
  pose proof (sync_trace_inv _ _ _ _ _ _ Htr3) as Hinv3. simpl in Hinv3.
  rewrite (prepare_synced s2 m Hm2) in Hinv3.
  unfold select_reference in Hinv3. simpl in Hinv3. rewrite Hm2 in Hinv3.
  simpl in Hinv3.
  destruct Hinv3
    as (_ & Hrate3 & Hf3 & Hsm3 & Ht03 & _ & _ & Htf3 & Hrev3 & Hexp3 & _).
  assert (Hpos : 0 <= frames s3).
  { rewrite Hf3. unfold CInt.wrap. apply Z.mod_pos_bound.
    apply Z.pow_pos_nonneg; lia. }
  repeat split; try congruence.
  intros Hlt. rewrite Htf3, <- Hf3. apply uint_small.
  split; [assumption|].
  destruct Hlt as [Hlt | Heq]; [assumption|].
  rewrite Hf3, Heq. unfold CInt.wrap. now apply Z.mod_pos_bound.
Qed.

(** C5. For every rate > 0 and every call, the expected duration of
    step 4 is computed from the selected frame count (the running counter
    in steady-state mode, the frames of the call in startup mode) in
    integer arithmetic: frames / rate whole seconds plus
    (frames % rate) * (1e9 / rate) nanoseconds, the nanoseconds in
    [0, 1e9).  It depends on the selected frame count alone, is exact on
    every whole number of seconds (frames a multiple of the rate), and is
    never longer than the exact frames * 1e9 / rate nor shorter by more
    than 1e9 mod rate nanoseconds, however many calls have been made: no
    rounding error adds up over repeated calls.  When the rate divides 1e9
    it is frames * 1e9 / rate itself. *)
Theorem sync_expected_duration s n env :
  0 < rate s ->
  let counter := CInt.wrap frames_bits (frames s + n) in
  let frames_sel :=
    if sync_mode s then CInt.uint counter
    else if FRAME_THRESHOLD <=? counter
         then CInt.uint (CInt.wrap frames_bits n) else n in
  exists s' rv tr,
    asrsync_sync_trace frames_bits s n env = Some (s', rv, tr)
    /\ tr_frames tr = frames_sel
    /\ tv_sec (tr_ts_rate tr) = frames_sel / rate s
    /\ tv_nsec (tr_ts_rate tr)
       = (frames_sel mod rate s) * (1000000000 / rate s)
    /\ 0 <= tv_nsec (tr_ts_rate tr) < 1000000000
    /\ (frames_sel mod rate s = 0 ->
        tr_ts_rate tr = mkts (frames_sel / rate s) 0)
    /\ timespec_ns (tr_ts_rate tr) <= frames_sel * 1000000000 / rate s
    /\ frames_sel * 1000000000 / rate s
       <= timespec_ns (tr_ts_rate tr) + 1000000000 mod rate s
    /\ (1000000000 mod rate s = 0 ->
        tr_ts_rate tr = expected_duration_spec (rate s) frames_sel).
Proof.
  intros Hr counter frames_sel.
  destruct (sync_trace_explicit s n env ltac:(lia)) as (s' & tr & Htr & Htrace & _).
  cbv zeta in Htr, Htrace. fold counter in Htrace. fold frames_sel in Htrace.
  eexists; eexists; eexists. split; [exact Htr|].
  rewrite Htrace. cbn [tr_frames tr_ts_rate].
  pose proof (expected_duration_wf (rate s) frames_sel Hr) as Hwf.
  pose proof (expected_duration_shortfall (rate s) frames_sel Hr) as [Hlo Hhi].
  split; [reflexivity|]. split; [reflexivity|].
  split; [unfold expected_duration; simpl; ring|].
  split; [exact Hwf|].
  split.
  { intros Hz. unfold expected_duration. rewrite Hz. f_equal. ring. }
  split; [exact Hlo|]. split; [exact Hhi|].
  intros Hdiv. apply expected_duration_exact; [lia | exact Hdiv].
Qed.

(** C6. For every instance in which sync_mode is set and every sequence of
    calls to sync, with any frame counts and any clock, every call of the
    sequence returns and sync_mode is still set after the last one: no call
    sets it back to false. *)
Theorem sync_mode_never_reverts s calls :
  rate s <> 0 -> sync_mode s = true ->
  exists s', run frames_bits s calls = Some s' /\ sync_mode s' = true.
Proof.
  intros Hr Hm.
  destruct (run_synced s calls Hm Hr) as (s' & Hrun & Hm' & _).
  now exists s'.
Qed.

(** C7. For every call to sync whose two clock reads succeed, let the
    running time be now minus the selected reference (ts0 in steady-state
    mode, ts in startup mode) and the expected duration that of the
    selected frame count (the running counter in steady-state mode, the
    frames of the call in startup mode).  sync returns 1 and calls
    nanosleep exactly when [difftimespec] of the running time against the
    expected duration returns a positive value, and returns 0 without
    calling nanosleep when it returns zero or a negative value.  In both
    cases the comparison stores the absolute difference of the two into
    ts_idle; that is the ts_idle the call leaves, and the duration slept,
    except in a startup-mode wait, where the damped value replaces it.  ts
    is the clock's final reading.  On well-formed time points the
    comparison is positive exactly when the running time is shorter than
    the expected duration, the stream being ahead of the clock. *)
Theorem sync_waits_iff_ahead s n env now later :
  rate s <> 0 -> clk_now env = ClockOk now -> clk_end env = ClockOk later ->
  let counter := CInt.wrap frames_bits (frames s + n) in
  let steady := sync_mode s || (FRAME_THRESHOLD <=? counter) in
  let frames_sel :=
    if sync_mode s then CInt.uint counter
    else if FRAME_THRESHOLD <=? counter
         then CInt.uint (CInt.wrap frames_bits n) else n in
  let ts_ref := if sync_mode s then ts0 s else ts s in
  let ts_rate :=
    mkts (frames_sel / rate s)
         (1000000000 / rate s * (frames_sel mod rate s)) in
  let ts_running := timespecsub now ts_ref in
  let cmp := fst (difftimespec ts_running ts_rate) in
  let diff := snd (difftimespec ts_running ts_rate) in
  exists s' tr,
    asrsync_sync_trace frames_bits s n env
      = Some (s', (if 0 <? cmp then 1 else 0), tr)
    /\ tr_ts_running tr = ts_running /\ tr_ts_rate tr = ts_rate
    /\ tr_cmp tr = cmp /\ tr_ts_idle tr = diff
    /\ tr_sleep tr = (if 0 <? cmp then Some (ts_idle s') else None)
    /\ ts_idle s'
       = (if (0 <? cmp) && negb steady then damp_idle diff else diff)
    /\ ts s' = later
    /\ (0 < rate s -> timespec_wf now ->
        timespec_wf (ts s) -> timespec_wf (ts0 s) ->
        timespec_wf diff
        /\ timespec_ns diff
           = Z.abs (timespec_ns now - timespec_ns ts_ref - timespec_ns ts_rate)
        /\ (0 < cmp <->
            timespec_ns now - timespec_ns ts_ref < timespec_ns ts_rate)).
Proof.
  intros Hr Hnow Hend counter steady frames_sel ts_ref ts_rate ts_running
    cmp diff.
  destruct (sync_trace_explicit s n env Hr)
    as (s' & tr & Htr & Htrace & Hidle & Hts).
  cbv zeta in Htr, Htrace, Hidle. rewrite Hnow in Htr, Htrace, Hidle.
  rewrite Hend in Hts. cbn [gettimestamp snd] in Htr, Htrace, Hidle, Hts.
  assert (Htr' : asrsync_sync_trace frames_bits s n env
                 = Some (s', (if 0 <? cmp then 1 else 0), tr)) by exact Htr.
  assert (Htrace' : tr = mktrace frames_sel ts_ref ts_rate ts_running cmp diff
                           (if 0 <? cmp
                            then Some (if steady then diff else damp_idle diff)
                            else None)) by exact Htrace.
  assert (Hidle' : ts_idle s' = (if (0 <? cmp) && negb steady
                                 then damp_idle diff else diff))
    by exact Hidle.
  clear Htr Htrace Hidle.
  assert (Hns : 0 < rate s -> timespec_wf now ->
                timespec_wf (ts s) -> timespec_wf (ts0 s) ->
                timespec_wf diff
                /\ timespec_ns diff
                   = Z.abs (timespec_ns now - timespec_ns ts_ref
                            - timespec_ns ts_rate)
                /\ (0 < cmp <->
                    timespec_ns now - timespec_ns ts_ref
                    < timespec_ns ts_rate)).
  { intros Hpos Hwnow Hwts Hwts0.
    assert (Hwrate : timespec_wf ts_rate)
      by (apply (expected_duration_wf (rate s) frames_sel Hpos)).
    assert (Hwref : timespec_wf ts_ref)
      by (unfold ts_ref; destruct (sync_mode s); assumption).
    assert (Hwrun : timespec_wf ts_running)
      by (now apply TimeDelta.timespecsub_wf).
    assert (Hnsrun : timespec_ns ts_running
                     = timespec_ns now - timespec_ns ts_ref)
      by apply TimeDelta.timespecsub_ns.
    split; [now apply TimeDelta.difftimespec_wf|].
    split.
    - unfold diff. rewrite TimeDelta.difftimespec_abs by assumption.
      now rewrite Hnsrun.
    - pose proof (TimeDelta.difftimespec_sign _ _ Hwrun Hwrate) as Hsign.
      unfold ordering_of_int in Hsign.
      rewrite <- Hnsrun, <- Z.compare_gt_iff. unfold cmp. rewrite Hsign.
      apply Z.compare_gt_iff. }
  clearbody cmp diff steady.
  exists s', tr. split; [exact Htr'|].
  rewrite Htrace'. cbn [tr_ts_running tr_ts_rate tr_cmp tr_ts_idle tr_sleep].
  do 4 (split; [reflexivity|]).
  split.
  { rewrite Hidle'. destruct (0 <? cmp); [|reflexivity].
    destruct steady; reflexivity. }
  split; [exact Hidle'|]. split; [exact Hts|]. exact Hns.
Qed.

(** C10. For every synchronizer state, frame count and clock, failing
    clock reads included, a call of sync that is defined returns 0 or 1,
    never the documented error value -1; the call is undefined only for a
    zero rate.  What the clock reads return is not inspected. *)
Theorem sync_returns_zero_or_one s n env :
  match asrsync_sync frames_bits s n env with
  | Some (_, rv) => rv = 0 \/ rv = 1
  | None => rate s = 0
  end.
Proof.
  destruct (Z.eq_dec (rate s) 0) as [Hz | Hnz].
  - unfold asrsync_sync. now rewrite (sync_trace_none s n env Hz).
  - destruct (sync_trace_some s n env Hnz) as (s' & rv & tr & Htr).
    unfold asrsync_sync. rewrite Htr.
    pose proof (sync_trace_inv _ _ _ _ _ _ Htr) as Hinv. simpl in Hinv.
    destruct Hinv as (_ & _ & _ & _ & _ & _ & _ & _ & _ & _ & _ & _ & _
                      & Hwait & Hskip).
    destruct (Z.lt_ge_cases 0 (tr_cmp tr)) as [Hpos | Hle].
    + right. now destruct (Hwait Hpos).
    + left. now destruct (Hskip Hle).
Qed.

End SynchronizerFacts.

(* ================================================================= *)
(** ** Concrete runs *)

Ltac by_computation :=
  vm_compute; repeat split; first [reflexivity | discriminate | congruence].

(** C2: the code at an undamped idle time of three seconds.  A fresh
    instance at 8000 frames per second is handed 24000 frames with no time
    elapsed: the comparison stores 3 s, the startup damping turns it into
    1 s and 1500000000 ns, and that is what nanosleep is called with.  The
    nanoseconds are not below 1e9, and the value stands for 2.5 s, not for
    the 1.5 s that is half of 3 s.  The nanoseconds leave their range from
    an undamped 2 s on; an undamped 1 s is halved to 0.5 s. *)
Theorem startup_damping_three_seconds :
  asrsync_sync_trace 32 (Sample.fresh 8000) 24000
      (Sample.clock_at Sample.epoch (mkts 1 500000000))
    = Some (mkasrsync 8000 Sample.epoch (mkts 1 500000000) 24000 Sample.epoch
                      (mkts 1 1500000000) false,
            1,
            mktrace 24000 Sample.epoch (mkts 3 0) Sample.epoch 1 (mkts 3 0)
                    (Some (mkts 1 1500000000)))
  /\ damp_idle (mkts 3 0) = mkts 1 1500000000
  /\ damp_idle (mkts 2 0) = mkts 1 1000000000
  /\ damp_idle (mkts 1 0) = mkts 0 500000000
  /\ timespec_wfb (damp_idle (mkts 3 0)) = false
  /\ timespec_ns (damp_idle (mkts 3 0)) = 2500000000
  /\ 2 * timespec_ns (damp_idle (mkts 3 0)) <> timespec_ns (mkts 3 0).
Proof. by_computation. Qed.

(** C1: the code on a failing clock.  A fresh instance at 48000 frames
    per second is handed 1024 frames while both clock reads fail, whatever
    the uninitialized buffer [ts_now] holds.  The call returns 0 or 1, never
    the -1 its comment documents for an error, the frames counter has
    moved from 0 to 1024, and ts_busy has been overwritten from the
    buffer the failed read left untouched: the failure is not reported and
    the state is not left as it was. *)
Theorem sync_clock_failure_not_reported (init : timespec) :
  exists s' rv,
    asrsync_sync 32 (Sample.fresh 48000) 1024 (mkenv ClockFail init ClockFail)
      = Some (s', rv)
    /\ (rv = 0 \/ rv = 1) /\ rv <> -1
    /\ frames (Sample.fresh 48000) = 0 /\ frames s' = 1024
    /\ ts_busy s' = timespecsub init Sample.epoch
    /\ s' <> Sample.fresh 48000.
Proof.
  destruct (sync_trace_some 32 (Sample.fresh 48000) 1024
              (mkenv ClockFail init ClockFail))
    as (s' & rv & tr & Htr); [vm_compute; discriminate|].
  exists s', rv.
  pose proof (sync_trace_inv 32 _ _ _ _ _ _ Htr) as Hinv.
  cbv zeta in Hinv.
  destruct Hinv as (_ & _ & Hf & _ & _ & _ & Hbusy & _ & _ & _ & _ & _ & _
                    & Hwait & Hskip).
  assert (Hrv : rv = 0 \/ rv = 1).
  { destruct (Z.lt_ge_cases 0 (tr_cmp tr)) as [Hpos | Hle].
    - right. now destruct (Hwait Hpos).
    - left. now destruct (Hskip Hle). }
  change (frames (prepare 32 (Sample.fresh 48000) 1024)) with 1024 in Hf.
  split; [unfold asrsync_sync; now rewrite Htr|].
  split; [exact Hrv|]. split; [lia|].
  split; [reflexivity|]. split; [exact Hf|].
  split; [exact Hbusy|].
  intros Heq. rewrite Heq in Hf. discriminate Hf.
Qed.

(** C4, refuted as stated: t1 = 1 s and t2 = 2 s are well-formed, t1's
    seconds are the smaller, and the value returned is 1, the ordering
    `greater`, not `less`. *)
Lemma difftimespec_cross_second_counterexample :
  timespec_wf (mkts 1 0) /\ timespec_wf (mkts 2 0)
  /\ tv_sec (mkts 1 0) < tv_sec (mkts 2 0)
  /\ fst (difftimespec (mkts 1 0) (mkts 2 0)) = 1
  /\ ordering_of_int (fst (difftimespec (mkts 1 0) (mkts 2 0))) <> Lt.
Proof. by_computation. Qed.

Lemma difftimespec_cross_second_witness :
  timespec_wf (mkts 1 999999999) /\ timespec_wf (mkts 2 0)
  /\ tv_sec (mkts 1 999999999) <> tv_sec (mkts 2 0)
  /\ fst (difftimespec (mkts 1 999999999) (mkts 2 0)) = 1
  /\ snd (difftimespec (mkts 1 999999999) (mkts 2 0)) = mkts 0 1.
Proof.
  assert (H1 : timespec_wf (mkts 1 999999999)) by by_computation.
  assert (H2 : timespec_wf (mkts 2 0)) by by_computation.
  assert (Hs : tv_sec (mkts 1 999999999) <> tv_sec (mkts 2 0))
    by (vm_compute; discriminate).
  split; [exact H1|]. split; [exact H2|]. split; [exact Hs|].
  destruct (TimeDelta.difftimespec_cross_second _ _ H1 H2 Hs) as (Hlt & _).
  destruct Hlt as (Hrv & _ & Hd); [vm_compute; reflexivity|].
  split; [exact Hrv|]. rewrite Hd. reflexivity.
Defined.

Lemma difftimespec_swap_witness :
  timespec_wf (mkts 7 250) /\ timespec_wf (mkts 7 100)
  /\ mkts 7 250 <> mkts 7 100
  /\ snd (difftimespec (mkts 7 250) (mkts 7 100))
     = snd (difftimespec (mkts 7 100) (mkts 7 250))
  /\ fst (difftimespec (mkts 7 250) (mkts 7 100))
     = - fst (difftimespec (mkts 7 100) (mkts 7 250)).
Proof.
  assert (H1 : timespec_wf (mkts 7 250)) by by_computation.
  assert (H2 : timespec_wf (mkts 7 100)) by by_computation.
  assert (Hne : mkts 7 250 <> mkts 7 100) by discriminate.
  split; [exact H1|]. split; [exact H2|]. split; [exact Hne|].
  destruct (TimeDelta.difftimespec_swap _ _ H1 H2 Hne) as (Hd & Hrv & _).
  split; assumption.
Defined.

(** At 44100 frames per second and 22050 frames the code computes
    22050 * 22675 = 499983750 ns; multiplying before dividing,
    22050 * 1e9 / 44100, would give 500000000 ns. *)
Lemma expected_duration_at_44100 :
  asrsync_sync_trace 32 (Sample.fresh 44100) 22050
      (Sample.clock_at Sample.epoch Sample.epoch)
    = Some (mkasrsync 44100 Sample.epoch Sample.epoch 22050 Sample.epoch
                      (mkts 0 249991875) false,
            1,
            mktrace 22050 Sample.epoch (mkts 0 499983750) Sample.epoch
                    499983750 (mkts 0 499983750) (Some (mkts 0 249991875)))
  /\ expected_duration 44100 22050 = mkts 0 499983750
  /\ expected_duration_spec 44100 22050 = mkts 0 500000000
  /\ expected_duration 44100 22050 <> expected_duration_spec 44100 22050.
Proof. by_computation. Qed.

Lemma sync_expected_duration_witness :
  0 < rate (Sample.fresh 44100)
  /\ exists s' rv tr,
       asrsync_sync_trace 32 (Sample.fresh 44100) 22050 Sample.clock_down
         = Some (s', rv, tr)
       /\ tr_frames tr = 22050
       /\ tv_sec (tr_ts_rate tr) = 0
       /\ tv_nsec (tr_ts_rate tr) = 22050 * 22675
       /\ timespec_ns (tr_ts_rate tr) <= 22050 * 1000000000 / 44100
       /\ 22050 * 1000000000 / 44100
          <= timespec_ns (tr_ts_rate tr) + 1000000000 mod 44100.
Proof.
  assert (Hr : 0 < rate (Sample.fresh 44100)) by reflexivity.
  split; [exact Hr|].
  destruct (sync_expected_duration 32 (Sample.fresh 44100) 22050
              Sample.clock_down Hr)
    as (s' & rv & tr & Htr & Hf & Hs & Hn & _ & _ & Hlo & Hhi & _).
  exists s', rv, tr.
  split; [exact Htr|]. split; [exact Hf|]. split; [exact Hs|].
  split; [exact Hn|]. split; [exact Hlo | exact Hhi].
Defined.

Lemma sync_mode_transition_witness :
  rate Sample.near_threshold <> 0 /\ 32 <= 32 /\ 0 <= 1024 < 2 ^ 32
  /\ sync_mode Sample.near_threshold = false
  /\ FRAME_THRESHOLD <= CInt.wrap 32 (frames Sample.near_threshold + 1024)
  /\ exists s' rv tr,
       asrsync_sync_trace 32 Sample.near_threshold 1024
           (Sample.clock_at (mkts 5 10000000) (mkts 5 20000000))
         = Some (s', rv, tr)
       /\ sync_mode s' = true /\ frames s' = 1024 /\ ts0 s' = mkts 5 0
       /\ tr_frames tr = 1024 /\ tr_ts_rev tr = mkts 5 0.
Proof.
  assert (Hr : rate Sample.near_threshold <> 0) by (vm_compute; discriminate).
  assert (Hw : 32 <= 32) by (vm_compute; discriminate).
  assert (Hn : 0 <= 1024 < 2 ^ 32)
    by (vm_compute; split; [discriminate | reflexivity]).
  assert (Hm : sync_mode Sample.near_threshold = false) by reflexivity.
  assert (Hge : FRAME_THRESHOLD
                <= CInt.wrap 32 (frames Sample.near_threshold + 1024))
    by (vm_compute; discriminate).
  repeat (split; [assumption|]).
  destruct (sync_mode_transition 32 Sample.near_threshold 1024
              (Sample.clock_at (mkts 5 10000000) (mkts 5 20000000))
              Hr Hw Hn Hm Hge)
    as (s' & rv & tr & Htr & Hsm & Hf & Ht0 & Htf & Hrev & _).
  exists s', rv, tr.
  rewrite Htf, Hrev, Hf, Ht0. repeat split; assumption.
Defined.

Lemma sync_mode_never_reverts_witness :
  rate (Sample.steady 48000) <> 0 /\ sync_mode (Sample.steady 48000) = true
  /\ exists s',
       run 32 (Sample.steady 48000)
           [(0, Sample.clock_down);
            (4294967295, Sample.clock_at (mkts 12 0) (mkts 12 1));
            (1024, Sample.clock_at (mkts 13 0) (mkts 13 5))] = Some s'
       /\ sync_mode s' = true.
Proof.
  assert (Hr : rate (Sample.steady 48000) <> 0) by (vm_compute; discriminate).
  assert (Hm : sync_mode (Sample.steady 48000) = true) by reflexivity.
  split; [exact Hr|]. split; [exact Hm|].
  exact (sync_mode_never_reverts 32 _ _ Hr Hm).
Defined.

(** The scenario of the specification: 48000 frames at 48000 frames per
    second, half a second elapsed, in startup mode.  The comparison stores
    0.5 s; the call returns 1 and sleeps the damped 0.25 s. *)
Lemma sync_waits_iff_ahead_witness :
  rate (Sample.fresh 48000) <> 0
  /\ clk_now (Sample.clock_at (mkts 0 500000000) (mkts 0 750000000))
     = ClockOk (mkts 0 500000000)
  /\ clk_end (Sample.clock_at (mkts 0 500000000) (mkts 0 750000000))
     = ClockOk (mkts 0 750000000)
  /\ exists s' tr,
       asrsync_sync_trace 32 (Sample.fresh 48000) 48000
           (Sample.clock_at (mkts 0 500000000) (mkts 0 750000000))
         = Some (s', 1, tr)
       /\ tr_ts_running tr = mkts 0 500000000
       /\ tr_ts_rate tr = mkts 1 0
       /\ tr_cmp tr = 1
       /\ tr_ts_idle tr = mkts 0 500000000
       /\ tr_sleep tr = Some (ts_idle s')
       /\ ts_idle s' = mkts 0 250000000
       /\ ts s' = mkts 0 750000000.
Proof.
  assert (Hr : rate (Sample.fresh 48000) <> 0) by (vm_compute; discriminate).
  split; [exact Hr|]. split; [reflexivity|]. split; [reflexivity|].
  destruct (sync_waits_iff_ahead 32 (Sample.fresh 48000) 48000
              (Sample.clock_at (mkts 0 500000000) (mkts 0 750000000))
              _ _ Hr eq_refl eq_refl)
    as (s' & tr & Htr & Hrun & Hrate & Hc & Hi & Hsl & Hidle & Hts & _).
  exists s', tr.
  split; [exact Htr|]. split; [exact Hrun|]. split; [exact Hrate|].
  split; [exact Hc|]. split; [exact Hi|]. split; [exact Hsl|].
  split; [|exact Hts].
  rewrite Hidle. vm_compute. reflexivity.
Defined.

(* ================================================================= *)
(** ** Further properties of the time-delta utility *)

Lemma timespec_ns_inj (t1 t2 : timespec) :
  timespec_wf t1 -> timespec_wf t2 ->
  timespec_ns t1 = timespec_ns t2 -> t1 = t2.
Proof.
  destruct t1 as [s1 n1], t2 as [s2 n2].
  unfold timespec_wf, timespec_ns, NSEC_PER_SEC. simpl. intros H1 H2 He.
  assert (s1 = s2) by lia. subst s2. f_equal. lia.
Qed.

(** X1. For well-formed time points, in the same-second branch as across
    seconds, what [difftimespec] stores is a well-formed duration with
    non-negative seconds that stands for the absolute difference of the
    two instants. *)
Theorem difftimespec_absolute_difference (t1 t2 : timespec) :
  timespec_wf t1 -> timespec_wf t2 ->
  timespec_wf (snd (difftimespec t1 t2))
  /\ 0 <= tv_sec (snd (difftimespec t1 t2))
  /\ timespec_ns (snd (difftimespec t1 t2))
     = Z.abs (timespec_ns t1 - timespec_ns t2).
Proof.
  intros H1 H2.
  split; [now apply TimeDelta.difftimespec_wf|].
  split; [|now apply TimeDelta.difftimespec_abs].
  unfold difftimespec, timespecsub, timespec_wf, NSEC_PER_SEC in *.
  destruct (Z.eqb_spec (tv_sec t1) (tv_sec t2)); simpl; [lia|].
  destruct (Z.ltb_spec (tv_sec t1) (tv_sec t2)); simpl.
  - destruct (Z.ltb_spec (tv_nsec t2 - tv_nsec t1) 0); simpl; lia.
  - destruct (Z.ltb_spec (tv_nsec t1 - tv_nsec t2) 0); simpl; lia.
Qed.

(** X2. For well-formed time points the value [difftimespec] returns is
    positive exactly when t2 is the later instant, negative exactly when
    t2 is the earlier one, and zero exactly when the two time points are
    equal. *)
Theorem difftimespec_sign_matches_order (t1 t2 : timespec) :
  timespec_wf t1 -> timespec_wf t2 ->
  (0 < fst (difftimespec t1 t2) <-> timespec_ns t1 < timespec_ns t2)
  /\ (fst (difftimespec t1 t2) = 0 <-> t1 = t2)
  /\ (fst (difftimespec t1 t2) < 0 <-> timespec_ns t2 < timespec_ns t1).
Proof.
  intros H1 H2.
  pose proof (TimeDelta.difftimespec_sign t1 t2 H1 H2) as Hs.
  unfold ordering_of_int in Hs.
  split; [| split].
  - rewrite <- Z.compare_gt_iff, Hs. apply Z.compare_gt_iff.
  - rewrite <- Z.compare_eq_iff, Hs, Z.compare_eq_iff. split.
    + intros He. symmetry. now apply timespec_ns_inj.
    + now intros ->.
  - rewrite <- Z.compare_lt_iff, Hs. apply Z.compare_lt_iff.
Qed.

(** X3. For well-formed time points the same-second shortcut of
    [difftimespec] agrees with the general subtraction: in every branch
    the stored duration is [timespecsub] of the later time point and the
    earlier one. *)
Theorem difftimespec_later_minus_earlier (t1 t2 : timespec) :
  timespec_wf t1 -> timespec_wf t2 ->
  snd (difftimespec t1 t2)
  = if timespec_ns t1 <=? timespec_ns t2 then timespecsub t2 t1
    else timespecsub t1 t2.
Proof.
  intros H1 H2.
  unfold difftimespec, timespecsub, timespec_wf, timespec_ns, CInt.labs,
    NSEC_PER_SEC in *.
  destruct (Z.eqb_spec (tv_sec t1) (tv_sec t2)) as [E | Hne]; simpl.
  - rewrite E.
    destruct (Z.leb_spec (tv_sec t2 * 1000000000 + tv_nsec t1)
                         (tv_sec t2 * 1000000000 + tv_nsec t2)).
    + destruct (Z.ltb_spec (tv_nsec t2 - tv_nsec t1) 0); [lia|].
      f_equal; lia.
    + destruct (Z.ltb_spec (tv_nsec t1 - tv_nsec t2) 0); [lia|].
      f_equal; lia.
  - destruct (Z.ltb_spec (tv_sec t1) (tv_sec t2)); simpl.
    + destruct (Z.leb_spec (tv_sec t1 * 1000000000 + tv_nsec t1)
                           (tv_sec t2 * 1000000000 + tv_nsec t2));
        [reflexivity | lia].
    + destruct (Z.leb_spec (tv_sec t1 * 1000000000 + tv_nsec t1)
                           (tv_sec t2 * 1000000000 + tv_nsec t2));
        [lia | reflexivity].
Qed.

(* ================================================================= *)
(** ** Further properties of the expected duration *)

(** X4. At a positive rate more frames never give a shorter expected
    duration: the truncated nanoseconds per frame never make the
    expected time step back when the frame count crosses a whole second. *)
Theorem expected_duration_monotone (r f g : Z) :
  0 < r -> f <= g ->
  timespec_ns (expected_duration r f) <= timespec_ns (expected_duration r g).
Proof.
  intros Hr Hfg. unfold expected_duration, timespec_ns, NSEC_PER_SEC. simpl.
  pose proof (Z.mod_pos_bound f r Hr) as Hf.
  pose proof (Z.mod_pos_bound g r Hr) as Hg.
  pose proof (Z.div_mod f r ltac:(lia)) as Ef.
  pose proof (Z.div_mod g r ltac:(lia)) as Eg.
  pose proof (Z.mul_div_le 1000000000 r Hr) as Hq.
  assert (Hq0 : 0 <= 1000000000 / r) by (apply Z.div_pos; lia).
  assert (Hd : f / r <= g / r) by (apply Z.div_le_mono; lia).
  set (q := 1000000000 / r) in *.
  set (a := f / r) in *. set (b := g / r) in *.
  set (m := f mod r) in *. set (k := g mod r) in *.
  destruct (Z.eq_dec a b) as [E | Hne].
  - rewrite E in *. assert (m <= k) by lia. nia.
  - assert (a + 1 <= b) by lia.
    assert (q * m <= q * (r - 1)) by (apply Z.mul_le_mono_nonneg_l; lia).
    assert (0 <= q * k) by (apply Z.mul_nonneg_nonneg; lia).
    nia.
Qed.

(** X5. At a positive rate the expected duration the code computes is
    never longer than the exact frames * 1e9 / rate nanoseconds and falls
    short of it by at most 1e9 mod rate nanoseconds; on a whole number of
    seconds of audio (frames a multiple of the rate) it is exact, so the
    shortfall does not add up from one second to the next. *)
Theorem expected_duration_error_bound (r f : Z) :
  0 < r ->
  timespec_ns (expected_duration r f) <= f * 1000000000 / r
  /\ f * 1000000000 / r <= timespec_ns (expected_duration r f) + 1000000000 mod r
  /\ (f mod r = 0 -> expected_duration r f = mkts (f / r) 0).
Proof.
  intros Hr.
  assert (Hexact : f * 1000000000 / r
                   = f / r * 1000000000 + (f mod r) * 1000000000 / r).
  { rewrite (Z.div_mod f r) at 1 by lia.
    replace ((r * (f / r) + f mod r) * 1000000000)
      with (f / r * 1000000000 * r + f mod r * 1000000000) by ring.
    rewrite Z.div_add_l by lia. reflexivity. }
  assert (Hrem : (f mod r) * 1000000000 / r
                 = 1000000000 / r * (f mod r)
                   + (f mod r) * (1000000000 mod r) / r).
  { rewrite (Z.div_mod 1000000000 r) at 1 by lia.
    replace (f mod r * (r * (1000000000 / r) + 1000000000 mod r))
      with (1000000000 / r * (f mod r) * r + f mod r * (1000000000 mod r))
      by ring.
    rewrite Z.div_add_l by lia. reflexivity. }
  pose proof (Z.mod_pos_bound f r Hr) as Hm.
  pose proof (Z.mod_pos_bound 1000000000 r Hr) as Hrho.
  assert (Hlo : 0 <= (f mod r) * (1000000000 mod r) / r).
  { apply Z.div_pos; [|lia]. apply Z.mul_nonneg_nonneg; lia. }
  assert (Hhi : (f mod r) * (1000000000 mod r) / r <= 1000000000 mod r).
  { apply Z.div_le_upper_bound; [lia|]. nia. }
  unfold expected_duration, timespec_ns, NSEC_PER_SEC. simpl.
  split; [lia|]. split; [lia|].
  intros Hz. rewrite Hz. f_equal. ring.
Qed.

(* ================================================================= *)
(** ** Further properties of the synchronizer *)

Lemma difftimespec_zero_r (t : timespec) :
  timespec_wf t -> 0 <= tv_sec t ->
  fst (difftimespec t (mkts 0 0)) <= 0 /\ snd (difftimespec t (mkts 0 0)) = t.
Proof.
  destruct t as [s n]. unfold timespec_wf, NSEC_PER_SEC. simpl. intros Hn Hs.
  unfold difftimespec, timespecsub, CInt.labs. simpl.
  destruct (Z.eqb_spec s 0) as [-> | Hne]; simpl.
  - rewrite int_of_long_small by (change (2 ^ 31) with 2147483648; lia).
    split; [lia|]. f_equal. lia.
  - destruct (Z.ltb_spec s 0); [lia|]. simpl.
    destruct (Z.ltb_spec (n - 0) 0); [lia|].
    split; [lia|]. f_equal; lia.
Qed.

Lemma chunk_total_cons n env rest :
  chunk_total ((n, env) :: rest) = n + chunk_total rest.
Proof. reflexivity. Qed.

Lemma chunk_total_nonneg calls :
  Forall (fun c => 0 <= fst c) calls -> 0 <= chunk_total calls.
Proof.
  induction 1 as [| c rest Hc _ IH]; simpl; [lia|].
  unfold chunk_total in *. simpl. lia.
Qed.

Section SynchronizerAccounting.

Variable frames_bits : Z.

(** One defined call: the state it leaves in terms of steps 1 and 2. *)
Lemma sync_step_accounting s n env :
  rate s <> 0 ->
  exists s' rv,
    asrsync_sync frames_bits s n env = Some (s', rv)
    /\ rate s' = rate s
    /\ frames s' = frames (prepare frames_bits s n)
    /\ sync_mode s' = sync_mode (prepare frames_bits s n)
    /\ ts0 s' = ts0 (prepare frames_bits s n).
Proof.
  intros Hr.
  destruct (sync_trace_some frames_bits s n env Hr) as (s' & rv & tr & Htr).
  exists s', rv.
  pose proof (sync_trace_inv frames_bits _ _ _ _ _ _ Htr) as Hinv.
  simpl in Hinv. destruct Hinv as (_ & Hrate & Hf & Hsm & Ht0 & _).
  unfold asrsync_sync. rewrite Htr. auto.
Qed.

(** X6. The durations [ts_busy] and [ts_idle] an instance holds on entry
    are outputs only: whatever they are, [asrsync_sync] returns the same
    value, sleeps the same and leaves the same state. *)
Theorem sync_ignores_diagnostics s busy idle n env :
  asrsync_sync_trace frames_bits (set_ts_idle (set_ts_busy s busy) idle) n env
  = asrsync_sync_trace frames_bits s n env.
Proof.
  destruct s as [r t0 t f b i m].
  cbv beta iota zeta delta
    [asrsync_sync_trace accumulate mode_transition select_reference
     wait_branch set_ts_idle set_ts_busy set_frames set_sync_mode set_ts0
     set_ts rate ts0 ts frames ts_busy ts_idle sync_mode negb].
  destruct m.
  - cbv beta iota. destruct (r =? 0); [reflexivity|].
    destruct (difftimespec _ _) as [cmp d].
    destruct (0 <? cmp); reflexivity.
  - cbv beta iota.
    destruct (FRAME_THRESHOLD <=? CInt.wrap frames_bits (f + n));
      cbv beta iota;
      (destruct (r =? 0); [reflexivity|]);
      destruct (difftimespec _ _) as [cmp d];
      destruct (0 <? cmp); reflexivity.
Qed.

(** X7. A defined call leaves the instance in steady-state mode exactly
    when it was there already or the counter, with this call's frames
    added, has reached 200000.  When it leaves the instance in startup
    mode, the counter has advanced by the frames of the call, ts0 is
    untouched, the expected duration is computed from the frames of this
    call alone and the running time is measured from ts. *)
Theorem sync_mode_after_call s n env :
  rate s <> 0 ->
  exists s' rv tr,
    asrsync_sync_trace frames_bits s n env = Some (s', rv, tr)
    /\ (sync_mode s' = true <->
        sync_mode s = true
        \/ FRAME_THRESHOLD <= CInt.wrap frames_bits (frames s + n))
    /\ (sync_mode s' = false ->
        frames s' = CInt.wrap frames_bits (frames s + n)
        /\ ts0 s' = ts0 s
        /\ tr_frames tr = n /\ tr_ts_rev tr = ts s
        /\ tr_ts_rate tr = expected_duration (rate s) n).
Proof.
  intros Hr.
  destruct (sync_trace_some frames_bits s n env Hr) as (s' & rv & tr & Htr).
  exists s', rv, tr. split; [exact Htr|].
  pose proof (sync_trace_inv frames_bits _ _ _ _ _ _ Htr) as Hinv.
  simpl in Hinv.
  destruct Hinv as (_ & _ & Hf & Hsm & Ht0 & _ & _ & Htf & Hrev & Hexp & _).
  destruct (sync_mode s) eqn:Hm.
  - rewrite (prepare_synced frames_bits s n Hm) in *. simpl in *.
    rewrite Hm in *. split; [tauto | congruence].
  - destruct (Z.le_gt_cases FRAME_THRESHOLD
                (CInt.wrap frames_bits (frames s + n))) as [Hge | Hlt].
    + rewrite (prepare_transition frames_bits s n Hm Hge) in *. simpl in *.
      split; [tauto | congruence].
    + rewrite (prepare_startup frames_bits s n Hm Hlt) in *.
      unfold select_reference in *. simpl in *. rewrite Hm in *. simpl in *.
      split.
      * split; [congruence|]. intros [Hc | Hc]; [discriminate | lia].
      * intros _. rewrite Hexp, Htf. auto.
Qed.

(** *** Sequences of calls, mode by mode *)

Lemma run_app s calls1 calls2 :
  run frames_bits s (calls1 ++ calls2)
  = match run frames_bits s calls1 with
    | Some s1 => run frames_bits s1 calls2
    | None => None
    end.
Proof.
  revert s. induction calls1 as [| [n env] rest IH]; intros s; [reflexivity|].
  rewrite <- app_comm_cons, !run_cons.
  destruct (asrsync_sync frames_bits s n env) as [[s1 rv] |]; [apply IH|].
  reflexivity.
Qed.

Lemma chunk_total_app calls1 calls2 :
  chunk_total (calls1 ++ calls2) = chunk_total calls1 + chunk_total calls2.
Proof.
  induction calls1 as [| [n env] rest IH]; [reflexivity|].
  rewrite <- app_comm_cons, !chunk_total_cons, IH. ring.
Qed.

(** A run that stays below the threshold. *)
Lemma run_startup_accumulates s calls :
  rate s <> 0 -> sync_mode s = false ->
  FRAME_THRESHOLD <= 2 ^ frames_bits ->
  0 <= frames s -> Forall (fun c => 0 <= fst c) calls ->
  frames s + chunk_total calls < FRAME_THRESHOLD ->
  exists s',
    run frames_bits s calls = Some s'
    /\ sync_mode s' = false
    /\ frames s' = frames s + chunk_total calls
    /\ ts0 s' = ts0 s /\ rate s' = rate s.
Proof.
  intros Hr Hm Hw Hf0 Hall. revert s Hr Hm Hf0.
  induction Hall as [| [n env] rest Hn Hrest IH]; intros s Hr Hm Hf0 Hlt.
  - exists s. unfold chunk_total. simpl. repeat split; auto. lia.
  - simpl in Hn. rewrite chunk_total_cons in Hlt.
    pose proof (chunk_total_nonneg rest Hrest) as Hpos.
    assert (Hwrap : CInt.wrap frames_bits (frames s + n) = frames s + n)
      by (apply wrap_small; lia).
    destruct (sync_step_accounting s n env Hr)
      as (s1 & rv & Hrun & Hr1 & Hf1 & Hm1 & Ht1).
    rewrite (prepare_startup frames_bits s n Hm) in Hf1, Hm1, Ht1
      by (rewrite Hwrap; lia).
    simpl in Hf1, Hm1, Ht1. rewrite Hwrap in Hf1.
    rewrite run_cons, Hrun.
    destruct (IH s1) as (s' & Hs' & Hm' & Hf' & Ht' & Hr');
      try congruence; try lia.
    exists s'. rewrite chunk_total_cons.
    repeat split; try congruence. lia.
Qed.

(** A run in steady-state mode. *)
Lemma run_steady_accumulates s calls :
  rate s <> 0 -> sync_mode s = true ->
  0 <= frames s < 2 ^ frames_bits ->
  exists s',
    run frames_bits s calls = Some s'
    /\ sync_mode s' = true
    /\ frames s' = CInt.wrap frames_bits (frames s + chunk_total calls)
    /\ ts0 s' = ts0 s /\ rate s' = rate s.
Proof.
  revert s. induction calls as [| [n env] rest IH]; intros s Hr Hm Hf.
  - exists s. unfold chunk_total. simpl. rewrite Z.add_0_r.
    rewrite wrap_small by assumption. auto.
  - destruct (sync_step_accounting s n env Hr)
      as (s1 & rv & Hrun & Hr1 & Hf1 & Hm1 & Ht1).
    rewrite (prepare_synced frames_bits s n Hm) in Hf1, Hm1, Ht1.
    simpl in Hf1, Hm1, Ht1.
    assert (Hpow : 0 < 2 ^ frames_bits) by lia.
    destruct (IH s1) as (s' & Hs' & Hm' & Hf' & Ht' & Hr'); try congruence.
    { rewrite Hf1. unfold CInt.wrap. now apply Z.mod_pos_bound. }
    exists s'. rewrite run_cons, Hrun, chunk_total_cons.
    split; [exact Hs'|]. split; [exact Hm'|].
    split; [| split; congruence].
    rewrite Hf', Hf1. unfold CInt.wrap.
    rewrite Zplus_mod_idemp_l. f_equal. ring.
Qed.

(** X8. The transition never happens early.  In startup mode, as long as
    the frames counted so far and the non-negative frame counts of a
    sequence of calls stay together below 200000, every call returns and,
    after every prefix of the sequence, the instance is still in startup
    mode, its counter is the exact sum of the frames handed over so far
    and ts0 is untouched. *)
Theorem run_startup_below_threshold s calls done rest :
  rate s <> 0 -> sync_mode s = false ->
  FRAME_THRESHOLD <= 2 ^ frames_bits ->
  0 <= frames s -> Forall (fun c => 0 <= fst c) calls ->
  frames s + chunk_total calls < FRAME_THRESHOLD ->
  calls = done ++ rest ->
  exists s1 s',
    run frames_bits s done = Some s1
    /\ sync_mode s1 = false
    /\ frames s1 = frames s + chunk_total done
    /\ ts0 s1 = ts0 s
    /\ run frames_bits s calls = Some s'
    /\ sync_mode s' = false.
Proof.
  intros Hr Hm Hw Hf0 Hall Hlt ->.
  apply Forall_app in Hall. destruct Hall as [Hdone Hrest].
  rewrite chunk_total_app in Hlt.
  pose proof (chunk_total_nonneg rest Hrest) as Hpos.
  pose proof (chunk_total_nonneg done Hdone) as Hpos'.
  destruct (run_startup_accumulates s done Hr Hm Hw Hf0 Hdone ltac:(lia))
    as (s1 & Hrun1 & Hm1 & Hf1 & Ht1 & Hr1).
  destruct (run_startup_accumulates s1 rest) as (s' & Hrun' & Hm' & _);
    try assumption; try congruence; try lia.
  exists s1, s'. rewrite run_app, Hrun1. auto 10.
Qed.

(** X9. In steady-state mode the counter is linear in the frames handed
    over: after any sequence of calls it is the counter on entry plus the
    frames of all the calls, modulo 2^frames_bits, whatever the clock did.
    Two sequences that hand over the same number of frames, however split
    into calls, leave the same counter, and ts0 is the same after both. *)
Theorem run_steady_counter s calls1 calls2 :
  rate s <> 0 -> sync_mode s = true ->
  0 <= frames s < 2 ^ frames_bits ->
  chunk_total calls1 = chunk_total calls2 ->
  exists s1 s2,
    run frames_bits s calls1 = Some s1
    /\ run frames_bits s calls2 = Some s2
    /\ frames s1 = CInt.wrap frames_bits (frames s + chunk_total calls1)
    /\ frames s2 = frames s1
    /\ ts0 s1 = ts0 s /\ ts0 s2 = ts0 s.
Proof.
  intros Hr Hm Hf Heq.
  destruct (run_steady_accumulates s calls1 Hr Hm Hf)
    as (s1 & Hrun1 & _ & Hf1 & Ht1 & _).
  destruct (run_steady_accumulates s calls2 Hr Hm Hf)
    as (s2 & Hrun2 & _ & Hf2 & Ht2 & _).
  exists s1, s2. rewrite Hf2, <- Heq. auto 10.
Qed.

(** X13. A run through the transition.  When a sequence of calls in
    startup mode stays below 200000 frames and the next call reaches it
    (without wrapping the counter), then after any further calls the
    instance is in steady-state mode, ts0 is the ts left by the last call
    before the transition, and the counter holds the frames of the
    transition call and of the calls after it, modulo 2^frames_bits: the
    frames counted in startup mode are discarded. *)
Theorem run_through_transition s before n env after :
  rate s <> 0 -> sync_mode s = false -> 0 <= frames s ->
  Forall (fun c => 0 <= fst c) before -> 0 <= n ->
  frames s + chunk_total before < FRAME_THRESHOLD ->
  FRAME_THRESHOLD <= frames s + chunk_total before + n ->
  frames s + chunk_total before + n < 2 ^ frames_bits ->
  exists s1 s',
    run frames_bits s before = Some s1
    /\ run frames_bits s (before ++ (n, env) :: after) = Some s'
    /\ sync_mode s' = true
    /\ ts0 s' = ts s1
    /\ frames s' = CInt.wrap frames_bits (n + chunk_total after).
Proof.
  intros Hr Hm Hf0 Hall Hn Hlt Hge Hfit.
  pose proof (chunk_total_nonneg before Hall) as Hpos.
  destruct (run_startup_accumulates s before Hr Hm ltac:(lia) Hf0 Hall Hlt)
    as (s1 & Hrun1 & Hm1 & Hf1 & Ht1 & Hr1).
  assert (Hr1' : rate s1 <> 0) by congruence.
  assert (Hwrap : CInt.wrap frames_bits (frames s1 + n) = frames s1 + n)
    by (apply wrap_small; lia).
  destruct (sync_step_accounting s1 n env Hr1')
    as (s2 & rv & Hrun2 & Hr2 & Hf2 & Hm2 & Ht2).
  rewrite (prepare_transition frames_bits s1 n Hm1) in Hf2, Hm2, Ht2
    by (rewrite Hwrap; lia).
  simpl in Hf2, Hm2, Ht2.
  rewrite wrap_small in Hf2 by lia.
  destruct (run_steady_accumulates s2 after) as (s' & Hrun' & Hm' & Hf' & Ht' & _);
    try congruence; try lia.
  exists s1, s'.
  rewrite run_app, Hrun1, run_cons, Hrun2.
  repeat split; try congruence.
Qed.

(** X10. A call with no frames in startup mode never waits: with a
    positive rate, the counter below 200000 and a clock that has not gone
    back behind ts, it returns 0 without calling nanosleep, and both
    ts_busy and ts_idle hold the time elapsed since the previous call. *)
Theorem sync_zero_chunk_no_wait s env now :
  0 < rate s -> sync_mode s = false ->
  CInt.wrap frames_bits (frames s + 0) < FRAME_THRESHOLD ->
  clk_now env = ClockOk now ->
  timespec_wf now -> timespec_wf (ts s) ->
  timespec_ns (ts s) <= timespec_ns now ->
  exists s' tr,
    asrsync_sync_trace frames_bits s 0 env = Some (s', 0, tr)
    /\ tr_sleep tr = None
    /\ ts_idle s' = timespecsub now (ts s)
    /\ ts_busy s' = timespecsub now (ts s)
    /\ timespec_ns (ts_idle s') = timespec_ns now - timespec_ns (ts s).
Proof.
  intros Hr Hm Hlt Hnow Hwn Hwt Hle.
  destruct (sync_trace_some frames_bits s 0 env ltac:(lia))
    as (s' & rv & tr & Htr).
  pose proof (sync_trace_inv frames_bits _ _ _ _ _ _ Htr) as Hinv.
  simpl in Hinv. rewrite Hnow in Hinv. simpl in Hinv.
  rewrite (prepare_startup frames_bits s 0 Hm Hlt) in Hinv.
  unfold select_reference in Hinv. simpl in Hinv. rewrite Hm in Hinv.
  simpl in Hinv.
  destruct Hinv as (_ & _ & _ & _ & _ & _ & Hbusy & Htf & Hrev & Hexp & Hrun
                    & Hcmp & Hidle & _ & Hskip).
  assert (Hzero : tr_ts_rate tr = mkts 0 0).
  { rewrite Hexp, Htf. unfold expected_duration.
    rewrite Z.mod_0_l by lia. rewrite Z.div_0_l by lia.
    now rewrite Z.mul_0_r. }
  rewrite Hzero, Hrun, Hrev in Hcmp, Hidle.
  pose proof (TimeDelta.timespecsub_wf now (ts s) Hwn Hwt) as Hwr.
  pose proof (TimeDelta.timespecsub_ns now (ts s)) as Hnr.
  assert (Hsec : 0 <= tv_sec (timespecsub now (ts s))).
  { unfold timespec_wf, timespec_ns, NSEC_PER_SEC in *. lia. }
  destruct (difftimespec_zero_r _ Hwr Hsec) as (Hc0 & Hd0).
  rewrite <- Hcmp in Hc0. rewrite Hd0 in Hidle.
  destruct (Hskip Hc0) as (Hrv & Hsl & Hi).
  subst rv. exists s', tr.
  split; [exact Htr|]. split; [exact Hsl|].
  split; [congruence|]. split; [exact Hbusy|].
  rewrite Hi, Hidle. exact Hnr.
Qed.

(** X11. In steady-state mode, with a positive rate, a successful clock
    read and well-formed time points, the duration handed to nanosleep is
    well-formed and is exactly the lead of the stream: the expected
    duration of the running frame counter minus the time elapsed since
    ts0.  The call returns 1 when that lead is positive and 0, without
    sleeping, when the elapsed time has reached the expected duration. *)
Theorem sync_steady_sleep_exact s n env now :
  0 < rate s -> sync_mode s = true ->
  clk_now env = ClockOk now -> timespec_wf now -> timespec_wf (ts0 s) ->
  exists s' rv tr,
    asrsync_sync_trace frames_bits s n env = Some (s', rv, tr)
    /\ timespec_wf (ts_idle s')
    /\ tr_ts_rate tr = expected_duration (rate s) (CInt.uint (frames s'))
    /\ (rv = 1 ->
        tr_sleep tr = Some (ts_idle s')
        /\ 0 < timespec_ns (ts_idle s')
        /\ timespec_ns (ts_idle s')
           = timespec_ns (tr_ts_rate tr)
             - (timespec_ns now - timespec_ns (ts0 s)))
    /\ (rv = 0 ->
        tr_sleep tr = None
        /\ timespec_ns (tr_ts_rate tr)
           <= timespec_ns now - timespec_ns (ts0 s)).
Proof.
  intros Hr Hm Hnow Hwn Hw0.
  destruct (sync_trace_some frames_bits s n env ltac:(lia))
    as (s' & rv & tr & Htr).
  exists s', rv, tr. split; [exact Htr|].
  pose proof (sync_trace_inv frames_bits _ _ _ _ _ _ Htr) as Hinv.
  simpl in Hinv. rewrite Hnow in Hinv. simpl in Hinv.
  rewrite (prepare_synced frames_bits s n Hm) in Hinv.
  unfold select_reference in Hinv. simpl in Hinv. rewrite Hm in Hinv.
  simpl in Hinv.
  destruct Hinv as (_ & _ & Hf & _ & _ & _ & _ & Htf & Hrev & Hexp & Hrun
                    & Hcmp & Hidle & Hwait & Hskip).
  assert (Hwrate : timespec_wf (tr_ts_rate tr))
    by (rewrite Hexp; now apply expected_duration_wf).
  assert (Hwrun : timespec_wf (tr_ts_running tr)).
  { rewrite Hrun, Hrev. now apply TimeDelta.timespecsub_wf. }
  assert (Hnsrun : timespec_ns (tr_ts_running tr)
                   = timespec_ns now - timespec_ns (ts0 s)).
  { rewrite Hrun, Hrev. apply TimeDelta.timespecsub_ns. }
  pose proof (TimeDelta.difftimespec_wf _ _ Hwrun Hwrate) as Hwd.
  pose proof (TimeDelta.difftimespec_abs _ _ Hwrun Hwrate) as Habs.
  pose proof (TimeDelta.difftimespec_sign _ _ Hwrun Hwrate) as Hsign.
  rewrite <- Hidle in Hwd, Habs. rewrite <- Hcmp in Hsign.
  unfold ordering_of_int in Hsign.
  assert (Hi : ts_idle s' = tr_ts_idle tr).
  { destruct (Z.lt_ge_cases 0 (tr_cmp tr)) as [Hpos | Hle].
    - now destruct (Hwait Hpos) as (_ & _ & ->).
    - now destruct (Hskip Hle) as (_ & _ & ->). }
  split; [now rewrite Hi|].
  split; [rewrite Hexp, Htf, Hf; reflexivity|].
  split.
  - intros Hrv.
    destruct (Z.lt_ge_cases 0 (tr_cmp tr)) as [Hpos | Hle].
    + destruct (Hwait Hpos) as (_ & Hsl & _).
      apply Z.compare_gt_iff in Hpos. rewrite Hsign in Hpos.
      apply Z.compare_gt_iff in Hpos.
      split; [exact Hsl|]. rewrite Hi, Habs. lia.
    + destruct (Hskip Hle) as (Hrv0 & _). lia.
  - intros Hrv.
    destruct (Z.lt_ge_cases 0 (tr_cmp tr)) as [Hpos | Hle].
    + destruct (Hwait Hpos) as (Hrv1 & _). lia.
    + destruct (Hskip Hle) as (_ & Hsl & _).
      split; [exact Hsl|].
      assert (Hle' : timespec_ns (tr_ts_rate tr)
                     <= timespec_ns (tr_ts_running tr))
        by (unfold Z.le; rewrite <- Hsign; exact Hle).
      lia.
Qed.

(** X12. The rate is never written: after any sequence of calls that
    all return, with any frame counts and any clock, the rate of the
    instance is the rate it had before the first call. *)
Theorem run_rate_kept s calls s' :
  run frames_bits s calls = Some s' -> rate s' = rate s.
Proof.
  revert s. induction calls as [| [n env] rest IH]; intros s Hrun.
  - simpl in Hrun. now injection Hrun as <-.
  - rewrite run_cons in Hrun.
    destruct (asrsync_sync frames_bits s n env) as [[s1 rv] |] eqn:Hstep;
      [|discriminate].
    destruct (sync_eq_trace frames_bits _ _ _ _ _ Hstep) as [tr Htr].
    pose proof (sync_trace_inv frames_bits _ _ _ _ _ _ Htr) as Hinv.
    simpl in Hinv. destruct Hinv as (_ & Hr1 & _).
    rewrite (IH s1 Hrun). exact Hr1.
Qed.

(** X14. In steady-state mode the decision is anchored to ts0 alone:
    whatever ts the instance holds on entry, the call computes the same
    expected and running durations, returns the same value, hands the same
    duration to nanosleep and leaves the same counter, ts0 and ts_idle.
    Only ts_busy, and ts itself when the final clock read fails, depend on
    the ts found. *)
Theorem sync_steady_ignores_ts s t' n env :
  sync_mode s = true ->
  match asrsync_sync_trace frames_bits (set_ts s t') n env,
        asrsync_sync_trace frames_bits s n env with
  | Some (s1, rv1, tr1), Some (s2, rv2, tr2) =>
      rv1 = rv2 /\ tr1 = tr2
      /\ frames s1 = frames s2 /\ ts0 s1 = ts0 s2 /\ ts_idle s1 = ts_idle s2
      /\ (forall later, clk_end env = ClockOk later -> ts s1 = ts s2)
  | None, None => rate s = 0
  | _, _ => False
  end.
Proof.
  destruct s as [r t0 t f b i m]. simpl. intros ->.
  cbv beta iota zeta delta
    [asrsync_sync_trace accumulate mode_transition select_reference
     wait_branch set_ts_idle set_ts_busy set_frames set_sync_mode set_ts0
     set_ts rate ts0 ts frames ts_busy ts_idle sync_mode negb].
  destruct (Z.eqb_spec r 0) as [Hz | _]; [exact Hz|].
  destruct (difftimespec _ _) as [cmp d].
  destruct (0 <? cmp); cbv beta iota;
    (repeat split; try reflexivity);
    intros later Hend; rewrite Hend; reflexivity.
Qed.

End SynchronizerAccounting.

(* ================================================================= *)
(** ** Concrete runs of the further properties *)

Lemma difftimespec_absolute_difference_witness :
  timespec_wf (mkts 3 900000000) /\ timespec_wf (mkts 5 100000000)
  /\ timespec_wf (snd (difftimespec (mkts 3 900000000) (mkts 5 100000000)))
  /\ 0 <= tv_sec (snd (difftimespec (mkts 3 900000000) (mkts 5 100000000)))
  /\ timespec_ns (snd (difftimespec (mkts 3 900000000) (mkts 5 100000000)))
     = Z.abs (timespec_ns (mkts 3 900000000) - timespec_ns (mkts 5 100000000)).
Proof.
  assert (H1 : timespec_wf (mkts 3 900000000)) by by_computation.
  assert (H2 : timespec_wf (mkts 5 100000000)) by by_computation.
  split; [exact H1|]. split; [exact H2|].
  exact (difftimespec_absolute_difference _ _ H1 H2).
Defined.

Lemma difftimespec_sign_matches_order_witness :
  timespec_wf (mkts 3 900000000) /\ timespec_wf (mkts 5 100000000)
  /\ (0 < fst (difftimespec (mkts 3 900000000) (mkts 5 100000000))
      <-> timespec_ns (mkts 3 900000000) < timespec_ns (mkts 5 100000000))
  /\ (fst (difftimespec (mkts 3 900000000) (mkts 5 100000000)) = 0
      <-> mkts 3 900000000 = mkts 5 100000000)
  /\ (fst (difftimespec (mkts 3 900000000) (mkts 5 100000000)) < 0
      <-> timespec_ns (mkts 5 100000000) < timespec_ns (mkts 3 900000000)).
Proof.
  assert (H1 : timespec_wf (mkts 3 900000000)) by by_computation.
  assert (H2 : timespec_wf (mkts 5 100000000)) by by_computation.
  split; [exact H1|]. split; [exact H2|].
  exact (difftimespec_sign_matches_order _ _ H1 H2).
Defined.

Lemma difftimespec_later_minus_earlier_witness :
  timespec_wf (mkts 7 250) /\ timespec_wf (mkts 7 100)
  /\ snd (difftimespec (mkts 7 250) (mkts 7 100))
     = timespecsub (mkts 7 250) (mkts 7 100).
Proof.
  assert (H1 : timespec_wf (mkts 7 250)) by by_computation.
  assert (H2 : timespec_wf (mkts 7 100)) by by_computation.
  split; [exact H1|]. split; [exact H2|].
  exact (difftimespec_later_minus_earlier _ _ H1 H2).
Defined.

Lemma expected_duration_monotone_witness :
  0 < 44100 /\ 44099 <= 44100
  /\ timespec_ns (expected_duration 44100 44099)
     <= timespec_ns (expected_duration 44100 44100).
Proof.
  assert (Hr : 0 < 44100) by reflexivity.
  assert (Hfg : 44099 <= 44100) by (vm_compute; discriminate).
  split; [exact Hr|]. split; [exact Hfg|].
  exact (expected_duration_monotone 44100 44099 44100 Hr Hfg).
Defined.

Lemma expected_duration_error_bound_witness :
  0 < 44100
  /\ timespec_ns (expected_duration 44100 22050) <= 22050 * 1000000000 / 44100
  /\ 22050 * 1000000000 / 44100
     <= timespec_ns (expected_duration 44100 22050) + 1000000000 mod 44100.
Proof.
  assert (Hr : 0 < 44100) by reflexivity.
  split; [exact Hr|].
  destruct (expected_duration_error_bound 44100 22050 Hr) as (Hlo & Hhi & _).
  split; assumption.
Defined.

Lemma sync_mode_after_call_witness :
  rate (Sample.fresh 48000) <> 0
  /\ exists s' rv tr,
       asrsync_sync_trace 32 (Sample.fresh 48000) 1024 Sample.clock_down
         = Some (s', rv, tr)
       /\ (sync_mode s' = true <->
           sync_mode (Sample.fresh 48000) = true
           \/ FRAME_THRESHOLD
              <= CInt.wrap 32 (frames (Sample.fresh 48000) + 1024))
       /\ (sync_mode s' = false ->
           frames s' = CInt.wrap 32 (frames (Sample.fresh 48000) + 1024)
           /\ ts0 s' = ts0 (Sample.fresh 48000)
           /\ tr_frames tr = 1024 /\ tr_ts_rev tr = ts (Sample.fresh 48000)
           /\ tr_ts_rate tr
              = expected_duration (rate (Sample.fresh 48000)) 1024).
Proof.
  assert (Hr : rate (Sample.fresh 48000) <> 0) by (vm_compute; discriminate).
  split; [exact Hr|].
  exact (sync_mode_after_call 32 _ 1024 Sample.clock_down Hr).
Defined.

Lemma run_startup_below_threshold_witness :
  rate (Sample.fresh 44100) <> 0 /\ sync_mode (Sample.fresh 44100) = false
  /\ FRAME_THRESHOLD <= 2 ^ 32 /\ 0 <= frames (Sample.fresh 44100)
  /\ exists s1 s',
       run 32 (Sample.fresh 44100) [(1024, Sample.clock_down)] = Some s1
       /\ sync_mode s1 = false
       /\ frames s1 = 1024
       /\ run 32 (Sample.fresh 44100)
              [(1024, Sample.clock_down); (2048, Sample.clock_down)] = Some s'
       /\ sync_mode s' = false.
Proof.
  assert (Hr : rate (Sample.fresh 44100) <> 0) by (vm_compute; discriminate).
  assert (Hm : sync_mode (Sample.fresh 44100) = false) by reflexivity.
  assert (Hw : FRAME_THRESHOLD <= 2 ^ 32) by (vm_compute; discriminate).
  assert (Hf : 0 <= frames (Sample.fresh 44100)) by (vm_compute; discriminate).
  assert (Hall : Forall (fun c : Z * clock_env => 0 <= fst c)
                   [(1024, Sample.clock_down); (2048, Sample.clock_down)])
    by (repeat constructor; vm_compute; discriminate).
  assert (Hlt : frames (Sample.fresh 44100)
                + chunk_total [(1024, Sample.clock_down);
                               (2048, Sample.clock_down)] < FRAME_THRESHOLD)
    by reflexivity.
  repeat (split; [assumption|]).
  destruct (run_startup_below_threshold 32 (Sample.fresh 44100)
              [(1024, Sample.clock_down); (2048, Sample.clock_down)]
              [(1024, Sample.clock_down)] [(2048, Sample.clock_down)]
              Hr Hm Hw Hf Hall Hlt eq_refl)
    as (s1 & s' & Hrun1 & Hm1 & Hf1 & _ & Hrun' & Hm').
  exists s1, s'. repeat split; assumption.
Defined.

Lemma run_steady_counter_witness :
  rate (Sample.steady 48000) <> 0 /\ sync_mode (Sample.steady 48000) = true
  /\ 0 <= frames (Sample.steady 48000) < 2 ^ 32
  /\ exists s1 s2,
       run 32 (Sample.steady 48000)
           [(100, Sample.clock_down); (200, Sample.clock_down)] = Some s1
       /\ run 32 (Sample.steady 48000) [(300, Sample.clock_down)] = Some s2
       /\ frames s2 = frames s1.
Proof.
  assert (Hr : rate (Sample.steady 48000) <> 0) by (vm_compute; discriminate).
  assert (Hm : sync_mode (Sample.steady 48000) = true) by reflexivity.
  assert (Hf : 0 <= frames (Sample.steady 48000) < 2 ^ 32)
    by (vm_compute; split; [discriminate | reflexivity]).
  repeat (split; [assumption|]).
  destruct (run_steady_counter 32 (Sample.steady 48000)
              [(100, Sample.clock_down); (200, Sample.clock_down)]
              [(300, Sample.clock_down)] Hr Hm Hf eq_refl)
    as (s1 & s2 & Hrun1 & Hrun2 & _ & Heq & _).
  exists s1, s2. repeat split; assumption.
Defined.

Lemma run_through_transition_witness :
  rate Sample.near_threshold <> 0 /\ sync_mode Sample.near_threshold = false
  /\ 0 <= frames Sample.near_threshold
  /\ exists s1 s',
       run 32 Sample.near_threshold
           [(500, Sample.clock_at (mkts 5 1000) (mkts 5 2000))] = Some s1
       /\ run 32 Sample.near_threshold
              ([(500, Sample.clock_at (mkts 5 1000) (mkts 5 2000))]
               ++ (1024, Sample.clock_down) :: [(2048, Sample.clock_down)])
          = Some s'
       /\ sync_mode s' = true
       /\ ts0 s' = ts s1
       /\ frames s' = CInt.wrap 32 (1024 + 2048).
Proof.
  assert (Hr : rate Sample.near_threshold <> 0) by (vm_compute; discriminate).
  assert (Hm : sync_mode Sample.near_threshold = false) by reflexivity.
  assert (Hf : 0 <= frames Sample.near_threshold) by (vm_compute; discriminate).
  repeat (split; [assumption|]).
  assert (Hall : Forall (fun c : Z * clock_env => 0 <= fst c)
                   [(500, Sample.clock_at (mkts 5 1000) (mkts 5 2000))])
    by (repeat constructor; vm_compute; discriminate).
  assert (Hn : 0 <= 1024) by (vm_compute; discriminate).
  exact (run_through_transition 32 Sample.near_threshold
           [(500, Sample.clock_at (mkts 5 1000) (mkts 5 2000))]
           1024 Sample.clock_down [(2048, Sample.clock_down)]
           Hr Hm Hf Hall Hn eq_refl
           ltac:(vm_compute; discriminate) eq_refl).
Defined.

Lemma sync_zero_chunk_no_wait_witness :
  0 < rate Sample.near_threshold /\ sync_mode Sample.near_threshold = false
  /\ timespec_ns (ts Sample.near_threshold) <= timespec_ns (mkts 5 1000)
  /\ exists s' tr,
       asrsync_sync_trace 32 Sample.near_threshold 0
           (Sample.clock_at (mkts 5 1000) (mkts 5 2000)) = Some (s', 0, tr)
       /\ tr_sleep tr = None
       /\ ts_idle s' = timespecsub (mkts 5 1000) (ts Sample.near_threshold).
Proof.
  assert (Hr : 0 < rate Sample.near_threshold) by reflexivity.
  assert (Hm : sync_mode Sample.near_threshold = false) by reflexivity.
  assert (Hle : timespec_ns (ts Sample.near_threshold)
                <= timespec_ns (mkts 5 1000)) by (vm_compute; discriminate).
  repeat (split; [assumption|]).
  destruct (sync_zero_chunk_no_wait 32 Sample.near_threshold
              (Sample.clock_at (mkts 5 1000) (mkts 5 2000)) (mkts 5 1000)
              Hr Hm eq_refl eq_refl ltac:(by_computation)
              ltac:(by_computation) Hle)
    as (s' & tr & Htr & Hsl & Hi & _).
  exists s', tr. repeat split; assumption.
Defined.

Lemma sync_steady_sleep_exact_witness :
  0 < rate (Sample.steady 48000) /\ sync_mode (Sample.steady 48000) = true
  /\ timespec_wf (mkts 12 500000000) /\ timespec_wf (ts0 (Sample.steady 48000))
  /\ exists s' rv tr,
       asrsync_sync_trace 32 (Sample.steady 48000) 48000
           (Sample.clock_at (mkts 12 500000000) (mkts 13 0))
         = Some (s', rv, tr)
       /\ timespec_wf (ts_idle s')
       /\ tr_ts_rate tr
          = expected_duration (rate (Sample.steady 48000))
                              (CInt.uint (frames s')).
Proof.
  assert (Hr : 0 < rate (Sample.steady 48000)) by reflexivity.
  assert (Hm : sync_mode (Sample.steady 48000) = true) by reflexivity.
  assert (Hwn : timespec_wf (mkts 12 500000000)) by by_computation.
  assert (Hw0 : timespec_wf (ts0 (Sample.steady 48000))) by by_computation.
  repeat (split; [assumption|]).
  destruct (sync_steady_sleep_exact 32 (Sample.steady 48000) 48000
              (Sample.clock_at (mkts 12 500000000) (mkts 13 0))
              (mkts 12 500000000) Hr Hm eq_refl Hwn Hw0)
    as (s' & rv & tr & Htr & Hwi & Hexp & _).
  exists s', rv, tr.
  split; [exact Htr|]. split; [exact Hwi | exact Hexp].
Defined.

Lemma sync_steady_ignores_ts_witness :
  sync_mode (Sample.steady 48000) = true
  /\ match asrsync_sync_trace 32 (set_ts (Sample.steady 48000) (mkts 11 0))
             48000 (Sample.clock_at (mkts 12 500000000) (mkts 13 0)),
           asrsync_sync_trace 32 (Sample.steady 48000)
             48000 (Sample.clock_at (mkts 12 500000000) (mkts 13 0)) with
     | Some (s1, rv1, tr1), Some (s2, rv2, tr2) =>
         rv1 = rv2 /\ tr1 = tr2
         /\ frames s1 = frames s2 /\ ts0 s1 = ts0 s2
         /\ ts_idle s1 = ts_idle s2
         /\ (forall later,
               clk_end (Sample.clock_at (mkts 12 500000000) (mkts 13 0))
               = ClockOk later -> ts s1 = ts s2)
     | None, None => rate (Sample.steady 48000) = 0
     | _, _ => False
     end.
Proof.
  assert (Hm : sync_mode (Sample.steady 48000) = true) by reflexivity.
  split; [exact Hm|].
  exact (sync_steady_ignores_ts 32 (Sample.steady 48000) (mkts 11 0) 48000
           (Sample.clock_at (mkts 12 500000000) (mkts 13 0)) Hm).
Defined.

Lemma run_rate_kept_witness :
  exists s',
    run 32 (Sample.steady 48000)
        [(100, Sample.clock_down); (200, Sample.clock_down)] = Some s'
    /\ rate s' = rate (Sample.steady 48000).
Proof.
  destruct (run 32 (Sample.steady 48000)
              [(100, Sample.clock_down); (200, Sample.clock_down)])
    as [s' |] eqn:Hrun; [| vm_compute in Hrun; discriminate].
  exists s'. split; [reflexivity|].
  exact (run_rate_kept 32 _ _ _ Hrun).
Defined.
